(** * price_tracker: a verified model of the price store and its chart renderer

    Shallow embedding of [src/price_tracker.py].  The SQLite file behind
    [DatabaseManager] is a record of three optional tables (a table is
    absent until its [CREATE TABLE IF NOT EXISTS] has run), every method
    is a computation in a state-and-exception monad over that record, and
    [Plotter] runs over a larger state that also holds the pyplot figures
    and the files written by [savefig]. *)

From Stdlib Require Import List ZArith String Ascii Bool Lia.
From Stdlib Require Import Sorted Permutation PrimFloat DecimalString.
Import ListNotations.

Set Warnings "-inexact-float".

Local Open Scope string_scope.
Local Open Scope Z_scope.
Local Open Scope list_scope.

(** ** Exceptions and the state-and-exception monad *)

(** The exceptions that can leave the methods of the module.  The program
    itself raises only [ValueError].  [OperationalError] and
    [IntegrityError] are those of [sqlite3], [DatabaseError] is the error
    pandas wraps a failed query in, and [DateParseError] stands for the
    [ValueError] (or subclass of it) with which [pd.to_datetime] refuses a
    text; it is kept apart from the errors the program raises itself. *)
Inductive exn : Type :=
| ValueError (msg : string)
| OperationalError (msg : string)
| IntegrityError (msg : string)
| DatabaseError (msg : string)
| DateParseError (text : string).

Definition M (S A : Type) : Type := S -> (exn + A) * S.

Definition ret {S A} (a : A) : M S A := fun s => (inr a, s).

Definition raise {S A} (e : exn) : M S A := fun s => (inl e, s).

Definition bind {S A B} (c : M S A) (k : A -> M S B) : M S B :=
  fun s =>
    match c s with
    | (inr a, s') => k a s'
    | (inl e, s') => (inl e, s')
    end.

Definition get {S} : M S S := fun s => (inr s, s).

Definition put {S} (s : S) : M S unit := fun _ => (inr tt, s).

Notation "x <- c ;; k" := (bind c (fun x => k))
  (at level 61, c at next level, right associativity).
Notation "c ;;; k" := (bind c (fun _ => k))
  (at level 61, right associativity).

(** [for x in xs: body(x)] *)
Fixpoint for_each {S A} (xs : list A) (body : A -> M S unit) : M S unit :=
  match xs with
  | [] => ret tt
  | x :: xs' => body x ;;; for_each xs' body
  end.

(** ** The dataclasses *)

(** The three dataclasses the module declares.  No method takes or
    returns them: the store works on names and rows. *)
Record Product : Type := mkProduct {
  product_name : string
}.

Record Market : Type := mkMarket {
  market_name : string;
  market_location : string   (* "" when not given *)
}.

Record PriceRecord : Type := mkPriceRecord {
  record_product : string;
  record_market : string;
  record_price_value : float;
  record_date : string       (* ISO format YYYY-MM-DD *)
}.

(** ** The relations of the database file *)

Record ProductRow : Type := mkProductRow {
  p_id : Z;
  p_name : string
}.

Record MarketRow : Type := mkMarketRow {
  m_id : Z;
  m_name : string;
  m_location : string
}.

Record PriceRow : Type := mkPriceRow {
  pr_id : Z;
  pr_product_id : Z;
  pr_market_id : Z;
  pr_price : float;
  pr_date : string
}.

(** A table is [None] until it has been created. *)
Record Database : Type := mkDatabase {
  products : option (list ProductRow);
  markets : option (list MarketRow);
  prices : option (list PriceRow)
}.

Definition empty_file : Database :=
  {| products := None; markets := None; prices := None |}.

Definition rows_of {A} (t : option (list A)) : list A :=
  match t with
  | Some rows => rows
  | None => []
  end.

Definition has_schema (db : Database) : Prop :=
  products db <> None /\ markets db <> None /\ prices db <> None.

(** ** DB_SCHEMA and _init_db *)

Inductive Relation : Type := Products | Markets | Prices.


Record Column : Type := mkColumn {
  col_name : string;
  col_type : string;
  col_primary_key : bool;
  col_unique : bool;
  col_not_null : bool
}.

(** One [CREATE TABLE IF NOT EXISTS] statement: the table, its columns and
    its [FOREIGN KEY(col) REFERENCES table(id)] clauses. *)
Record DDL : Type := mkDDL {
  ddl_table : Relation;
  ddl_columns : list Column;
  ddl_foreign_keys : list (string * Relation)
}.

(** The dict literal, in its insertion order (the order [.values()]
    iterates in). *)
Definition DB_SCHEMA : list (string * DDL) :=
  [ ("products",
     mkDDL Products
       [ mkColumn "id" "INTEGER" true false false;
         mkColumn "name" "TEXT" false true true ]
       []);
    ("markets",
     mkDDL Markets
       [ mkColumn "id" "INTEGER" true false false;
         mkColumn "name" "TEXT" false true true;
         mkColumn "location" "TEXT" false false false ]
       []);
    ("prices",
     mkDDL Prices
       [ mkColumn "id" "INTEGER" true false false;
         mkColumn "product_id" "INTEGER" false false true;
         mkColumn "market_id" "INTEGER" false false true;
         mkColumn "price" "REAL" false false true;
         mkColumn "date" "TEXT" false false true ]
       [ ("product_id", Products); ("market_id", Markets) ]) ].

Definition values {K V} (d : list (K * V)) : list V := map snd d.

Definition create_if_absent {A} (t : option (list A)) : option (list A) :=
  match t with
  | Some rows => Some rows
  | None => Some []
  end.

(** [cur.execute(ddl)]: SQLite does not look at the referenced tables when
    a table is created, so the statement succeeds whatever exists. *)
Definition execute_ddl (ddl : DDL) : M Database unit :=
  fun db =>
    (inr tt,
     match ddl_table ddl with
     | Products => mkDatabase (create_if_absent (products db)) (markets db) (prices db)
     | Markets => mkDatabase (products db) (create_if_absent (markets db)) (prices db)
     | Prices => mkDatabase (products db) (markets db) (create_if_absent (prices db))
     end).

Definition _init_db : M Database unit :=
  for_each (values DB_SCHEMA) execute_ddl.

(** [DatabaseManager(db_path)] on a file in state [db]. *)
Definition DatabaseManager_init : M Database unit := _init_db.


(** ** Table access *)

Definition no_such_table {A} (name : string) : M Database A :=
  raise (OperationalError (String.append "no such table: " name)).

Definition products_table : M Database (list ProductRow) :=
  db <- get ;;
  match products db with
  | Some rows => ret rows
  | None => no_such_table "products"
  end.

Definition markets_table : M Database (list MarketRow) :=
  db <- get ;;
  match markets db with
  | Some rows => ret rows
  | None => no_such_table "markets"
  end.

Definition prices_table : M Database (list PriceRow) :=
  db <- get ;;
  match prices db with
  | Some rows => ret rows
  | None => no_such_table "prices"
  end.

(** [INTEGER PRIMARY KEY AUTOINCREMENT]: a new id is larger than every id
    in the table; the model takes the next one.  The engine also counts the
    ids of rows that [INSERT OR IGNORE] skipped, so the id it hands out can
    be larger than the model's; the properties below use of a new id only
    that it is new.  Ids are unbounded here; the engine stops at the largest
    64-bit integer. *)
Definition next_id (ids : list Z) : Z := 1 + fold_right Z.max 0 ids.

(** ** DatabaseManager: registration and lookup *)

(** [INSERT OR IGNORE INTO products(name) VALUES (?)]: the row is skipped
    when it would break [UNIQUE(name)]. *)
Definition add_product (name : string) : M Database unit :=
  rows <- products_table ;;
  if existsb (fun r => String.eqb (p_name r) name) rows then ret tt
  else
    db <- get ;;
    put (mkDatabase
           (Some (rows ++ [mkProductRow (next_id (map p_id rows)) name]))
           (markets db) (prices db)).

Definition add_market (name : string) (location : string) : M Database unit :=
  rows <- markets_table ;;
  if existsb (fun r => String.eqb (m_name r) name) rows then ret tt
  else
    db <- get ;;
    put (mkDatabase (products db)
           (Some (rows ++ [mkMarketRow (next_id (map m_id rows)) name location]))
           (prices db)).

(** [SELECT id FROM products WHERE name = ?] followed by [fetchone()]. *)
Definition get_product_id (name : string) : M Database (option Z) :=
  rows <- products_table ;;
  ret (option_map p_id (find (fun r => String.eqb (p_name r) name) rows)).

Definition get_market_id (name : string) : M Database (option Z) :=
  rows <- markets_table ;;
  ret (option_map m_id (find (fun r => String.eqb (m_name r) name) rows)).

(** What a REAL column gives back for a number put into it.  The engine
    keeps a whole number as an integer, so the negative zero comes back as
    zero; every other number comes back as it went in. *)
Definition sqlite_real (x : float) : float :=
  if PrimFloat.eqb x 0 then 0%float else x.

(** [INSERT INTO prices(product_id, market_id, price, date) VALUES ...].
    SQLite binds a NaN as NULL, which [price REAL NOT NULL] rejects.  The
    foreign keys are declared but not enforced by the engine (the
    connection never turns [foreign_keys] on). *)
Definition insert_price (pid mid : Z) (price : float) (date_iso : string)
  : M Database unit :=
  rows <- prices_table ;;
  if PrimFloat.is_nan price
  then raise (IntegrityError "NOT NULL constraint failed: prices.price")
  else
    db <- get ;;
    put (mkDatabase (products db) (markets db)
           (Some (rows ++ [mkPriceRow (next_id (map pr_id rows)) pid mid
                              (sqlite_real price) date_iso]))).

Definition record_price (product market : string) (price : float)
    (date_iso : string) : M Database unit :=
  pid <- get_product_id product ;;
  mid <- get_market_id market ;;
  match pid, mid with
  | Some pid, Some mid => insert_price pid mid price date_iso
  | _, _ => raise (ValueError "Unknown product or market. Ensure they are added first.")
  end.

(** ** ORDER BY *)

(** [ORDER BY key ASC] on rows in table order.  The rows are inserted one
    by one into the sorted result, an equal key staying behind the rows
    that came before it in the table. *)
Fixpoint insert_by {A} (leb : A -> A -> bool) (x : A) (l : list A) : list A :=
  match l with
  | [] => [x]
  | y :: l' => if leb x y then x :: l else y :: insert_by leb x l'
  end.

Definition order_by {A} (leb : A -> A -> bool) (l : list A) : list A :=
  fold_right (insert_by leb) [] l.

(** A TEXT column is compared with the BINARY collation: byte by byte, a
    proper prefix first.  This is [String.leb]. *)
Definition text_leb (a b : string) : bool := String.leb a b.

(** ** pd.to_datetime *)

(** The value pandas puts in the [date] column (the time of day, always
    midnight here, is left out). *)
Record Timestamp : Type := mkTimestamp {
  year : Z;
  month : Z;
  day : Z
}.

Definition Timestamp_compare (a b : Timestamp) : comparison :=
  match year a ?= year b with
  | Eq => match month a ?= month b with
          | Eq => day a ?= day b
          | c => c
          end
  | c => c
  end.

Definition Timestamp_leb (a b : Timestamp) : bool :=
  match Timestamp_compare a b with
  | Gt => false
  | _ => true
  end.

Inductive Directive : Type :=
| dir_Y              (* %Y: four digits *)
| dir_m              (* %m: two digits *)
| dir_d              (* %d: two digits *)
| dir_lit (c : ascii).

Definition digit (c : ascii) : option Z :=
  let n := Z.of_N (N_of_ascii c) in
  if (48 <=? n) && (n <=? 57) then Some (n - 48) else None.

(** Reads exactly [n] digits off the front of [s]. *)
Fixpoint take_digits (n : nat) (s : string) : option (Z * string) :=
  match n with
  | O => Some (0, s)
  | S n' =>
      match s with
      | String c s' =>
          match digit c with
          | Some d =>
              match take_digits n' s' with
              | Some (v, rest) => Some (d * 10 ^ Z.of_nat n' + v, rest)
              | None => None
              end
          | None => None
          end
      | EmptyString => None
      end
  end.

(** The fields read so far: year, month, day. *)
Definition Fields : Type := (option Z * option Z * option Z)%type.

Fixpoint scan (fmt : list Directive) (s : string) (f : Fields) : option Fields :=
  match fmt with
  | [] => match s with EmptyString => Some f | _ => None end
  | dir_Y :: fmt' =>
      match take_digits 4 s with
      | Some (v, rest) => let '(_, m, d) := f in scan fmt' rest (Some v, m, d)
      | None => None
      end
  | dir_m :: fmt' =>
      match take_digits 2 s with
      | Some (v, rest) => let '(y, _, d) := f in scan fmt' rest (y, Some v, d)
      | None => None
      end
  | dir_d :: fmt' =>
      match take_digits 2 s with
      | Some (v, rest) => let '(y, m, _) := f in scan fmt' rest (y, m, Some v)
      | None => None
      end
  | dir_lit c :: fmt' =>
      match s with
      | String c' rest => if Ascii.eqb c c' then scan fmt' rest f else None
      | EmptyString => None
      end
  end.

Definition is_leap (y : Z) : bool :=
  ((y mod 4 =? 0) && negb (y mod 100 =? 0)) || (y mod 400 =? 0).

Definition days_in_month (y m : Z) : Z :=
  if m =? 2 then (if is_leap y then 29 else 28)
  else if (m =? 4) || (m =? 6) || (m =? 9) || (m =? 11) then 30
  else 31.

Definition valid_date (y m d : Z) : bool :=
  (1 <=? m) && (m <=? 12) && (1 <=? d) && (d <=? days_in_month y m).

Definition strptime (fmt : list Directive) (s : string) : option Timestamp :=
  match scan fmt s (None, None, None) with
  | Some (Some y, Some m, Some d) =>
      if valid_date y m d then Some (mkTimestamp y m d) else None
  | _ => None
  end.

Definition fmt_iso : list Directive :=
  [dir_Y; dir_lit "-"; dir_m; dir_lit "-"; dir_d].

Definition fmt_us : list Directive :=
  [dir_m; dir_lit "/"; dir_d; dir_lit "/"; dir_Y].

(** The text has the shape of an ISO calendar date: four digits, a dash,
    two digits, a dash, two digits. *)
Definition iso_form (s : string) : bool :=
  match scan fmt_iso s (None, None, None) with
  | Some _ => true
  | None => false
  end.

(** pandas guesses one format from the first element of the column and
    reads the whole column with it.  Of the formats it can guess the model
    knows the documented one, ISO [YYYY-MM-DD], and the month-first
    [MM/DD/YYYY].  pandas reads more than that (fields of one digit, a
    day-first fallback, an empty text as a missing date); the model reports
    such a column as unparsable, so what is proved of a returned frame is
    proved for stores whose dates have the ISO form, or does not depend on
    how a date is read. *)
Definition guess_datetime_format (s : string) : option (list Directive) :=
  find (fun fmt => match strptime fmt s with Some _ => true | None => false end)
       [fmt_iso; fmt_us].

Fixpoint parse_all (fmt : list Directive) (col : list string) : exn + list Timestamp :=
  match col with
  | [] => inr []
  | s :: col' =>
      match strptime fmt s with
      | Some t =>
          match parse_all fmt col' with
          | inr ts => inr (t :: ts)
          | inl e => inl e
          end
      | None => inl (DateParseError s)
      end
  end.

Definition to_datetime (col : list string) : exn + list Timestamp :=
  match col with
  | [] => inr []
  | first :: _ =>
      match guess_datetime_format first with
      | Some fmt => parse_all fmt col
      | None => inl (DateParseError first)
      end
  end.

(** ** DatabaseManager: queries *)

(** Python truthiness of an [Optional[str]]: [None] and [""] are false. *)
Definition truthy (s : option string) : bool :=
  match s with
  | Some (String _ _) => true
  | _ => false
  end.

(** The argument of an [if market:] branch: the market when it is truthy. *)
Definition given (s : option string) : option string :=
  if truthy s then s else None.

(** A row of the SQL result, the date still text. *)
Record SqlRow : Type := mkSqlRow {
  q_product : string;
  q_market : string;
  q_price : float;
  q_date : string
}.

(** A row of the returned frame. *)
Record Row : Type := mkRow {
  df_product : string;
  df_market : string;
  df_price : float;
  df_date : Timestamp
}.

(** [FROM prices pr JOIN products p ON pr.product_id = p.id
     JOIN markets m ON pr.market_id = m.id WHERE p.name = ? [AND m.name = ?]] *)
Definition join_where (product : string) (market_filter : option string)
    (ps : list ProductRow) (ms : list MarketRow) (prs : list PriceRow)
  : list SqlRow :=
  flat_map (fun pr =>
    flat_map (fun p =>
      flat_map (fun m =>
        if String.eqb (p_name p) product
           && match market_filter with
              | Some market => String.eqb (m_name m) market
              | None => true
              end
        then [mkSqlRow (p_name p) (m_name m) (pr_price pr) (pr_date pr)]
        else [])
        (filter (fun m => Z.eqb (pr_market_id pr) (m_id m)) ms))
      (filter (fun p => Z.eqb (pr_product_id pr) (p_id p)) ps))
    prs.

(** The statement text [fetch_timeseries] builds. *)
Definition timeseries_sql (market_filter : option string) : string :=
  ("SELECT p.name as product, m.name as market, pr.price, pr.date "
   ++ "FROM prices pr "
   ++ "JOIN products p ON pr.product_id = p.id "
   ++ "JOIN markets m ON pr.market_id = m.id "
   ++ "WHERE p.name = ?"
   ++ match market_filter with
      | Some _ => " AND m.name = ?"
      | None => ""
      end
   ++ " ORDER BY pr.date ASC")%string.

(** pandas reports an error of the engine as its own [DatabaseError]. *)
Definition execution_failed {A} (sql : string) (c : M Database A) : M Database A :=
  fun db =>
    match c db with
    | (inl (OperationalError msg), db') =>
        (inl (DatabaseError ("Execution failed on sql '" ++ sql ++ "': " ++ msg)%string),
         db')
    | r => r
    end.

(** [pd.read_sql_query(query, con, params)] *)
Definition read_sql_query (product : string) (market_filter : option string)
  : M Database (list SqlRow) :=
  execution_failed (timeseries_sql market_filter)
    (prs <- prices_table ;;
     ps <- products_table ;;
     ms <- markets_table ;;
     ret (order_by (fun a b => text_leb (q_date a) (q_date b))
            (join_where product market_filter ps ms prs))).

(** [df['date'] = pd.to_datetime(df['date'])] *)
Definition convert_dates (df : list SqlRow) : M Database (list Row) :=
  match to_datetime (map q_date df) with
  | inr ts =>
      ret (map (fun rt => mkRow (q_product (fst rt)) (q_market (fst rt))
                            (q_price (fst rt)) (snd rt))
               (combine df ts))
  | inl e => raise e
  end.

Definition fetch_timeseries (product : string) (market : option string)
  : M Database (list Row) :=
  df <- read_sql_query product (given market) ;;
  convert_dates df.

Definition list_products : M Database (list string) :=
  rows <- products_table ;;
  ret (order_by text_leb (map p_name rows)).

Definition list_markets : M Database (list (string * string)) :=
  rows <- markets_table ;;
  ret (map (fun r => (m_name r, m_location r))
         (order_by (fun a b => text_leb (m_name a) (m_name b)) rows)).

(** ** pyplot and the Plotter *)

Record Line : Type := mkLine {
  line_x : list Timestamp;
  line_y : list float;
  line_marker : string;
  line_label : string
}.

Record Figure : Type := mkFigure {
  fig_figsize : float * float;
  fig_lines : list Line;
  fig_title : string;
  fig_xlabel : string;
  fig_ylabel : string;
  fig_grid : option float;
  fig_legend : bool;
  fig_tight : bool
}.

(** What a [Plotter] call can touch: the database file, the figures pyplot
    holds open (the current one first), the image files written so far and
    the figures put on screen.  [w_savefig] is the answer of matplotlib and
    of the file system to a request to write an image at a path: the name
    of the file that gets written (the path itself, or the path with the
    default extension when it has none), or the exception raised for a
    format that is not supported or a place that cannot be written. *)
Record World : Type := mkWorld {
  w_db : Database;
  w_figures : list Figure;
  w_files : list (string * (Figure * Z));
  w_shown : list Figure;
  w_savefig : string -> exn + string
}.

Definition lift_db {A} (c : M Database A) : M World A :=
  fun w =>
    let '(r, db') := c (w_db w) in
    (r, mkWorld db' (w_figures w) (w_files w) (w_shown w) (w_savefig w)).

Definition blank_figure (figsize : float * float) : Figure :=
  mkFigure figsize [] "" "" "" None false false.

Definition plt_figure (figsize : float * float) : M World unit :=
  fun w =>
    (inr tt, mkWorld (w_db w) (blank_figure figsize :: w_figures w)
               (w_files w) (w_shown w) (w_savefig w)).

(** A pyplot call that draws on the current figure (pyplot opens one of
    the default size when none is open). *)
Definition on_current (f : Figure -> Figure) : M World unit :=
  fun w =>
    (inr tt,
     match w_figures w with
     | fig :: figs =>
         mkWorld (w_db w) (f fig :: figs) (w_files w) (w_shown w) (w_savefig w)
     | [] => mkWorld (w_db w) [f (blank_figure (6.4, 4.8)%float)]
               (w_files w) (w_shown w) (w_savefig w)
     end).

(** The label a line gets when it is added as the [n]-th line of its axes:
    matplotlib puts ["_child" ++ n] in the place of an empty label. *)
Definition child_label (n : nat) (label : string) : string :=
  match label with
  | EmptyString =>
      String.append "_child" (NilEmpty.string_of_uint (Nat.to_uint n))
  | _ => label
  end.

Definition plt_plot (x : list Timestamp) (y : list float) (marker label : string)
  : M World unit :=
  on_current (fun fig =>
    mkFigure (fig_figsize fig)
      (fig_lines fig
       ++ [mkLine x y marker (child_label (List.length (fig_lines fig)) label)])
      (fig_title fig) (fig_xlabel fig) (fig_ylabel fig) (fig_grid fig)
      (fig_legend fig) (fig_tight fig)).

Definition plt_title (t : string) : M World unit :=
  on_current (fun fig =>
    mkFigure (fig_figsize fig) (fig_lines fig) t (fig_xlabel fig)
      (fig_ylabel fig) (fig_grid fig) (fig_legend fig) (fig_tight fig)).

Definition plt_xlabel (l : string) : M World unit :=
  on_current (fun fig =>
    mkFigure (fig_figsize fig) (fig_lines fig) (fig_title fig) l
      (fig_ylabel fig) (fig_grid fig) (fig_legend fig) (fig_tight fig)).

Definition plt_ylabel (l : string) : M World unit :=
  on_current (fun fig =>
    mkFigure (fig_figsize fig) (fig_lines fig) (fig_title fig) (fig_xlabel fig)
      l (fig_grid fig) (fig_legend fig) (fig_tight fig)).

Definition plt_grid (alpha : float) : M World unit :=
  on_current (fun fig =>
    mkFigure (fig_figsize fig) (fig_lines fig) (fig_title fig) (fig_xlabel fig)
      (fig_ylabel fig) (Some alpha) (fig_legend fig) (fig_tight fig)).

Definition plt_legend : M World unit :=
  on_current (fun fig =>
    mkFigure (fig_figsize fig) (fig_lines fig) (fig_title fig) (fig_xlabel fig)
      (fig_ylabel fig) (fig_grid fig) true (fig_tight fig)).

Definition plt_tight_layout : M World unit :=
  on_current (fun fig =>
    mkFigure (fig_figsize fig) (fig_lines fig) (fig_title fig) (fig_xlabel fig)
      (fig_ylabel fig) (fig_grid fig) (fig_legend fig) true).

(** [plt.savefig(path, dpi=...)]: the current figure is written to the
    file [w_savefig] names; when [w_savefig] answers with an exception,
    that is raised and nothing is written. *)
Definition plt_savefig (path : string) (dpi : Z) : M World unit :=
  fun w =>
    let fig := hd (blank_figure (6.4, 4.8)%float) (w_figures w) in
    match w_savefig w path with
    | inr file =>
        (inr tt, mkWorld (w_db w) (w_figures w) (w_files w ++ [(file, (fig, dpi))])
                   (w_shown w) (w_savefig w))
    | inl e => (inl e, w)
    end.

Definition plt_close : M World unit :=
  fun w =>
    (inr tt, mkWorld (w_db w) (tl (w_figures w)) (w_files w) (w_shown w)
               (w_savefig w)).

(** [plt.show()] puts every open figure on screen and returns when they
    have been dismissed. *)
Definition plt_show : M World unit :=
  fun w =>
    (inr tt, mkWorld (w_db w) [] (w_files w) (w_shown w ++ rev (w_figures w))
               (w_savefig w)).

(** [df.groupby('market')]: one group per market, the keys in sorted
    order, the rows of a group in frame order. *)
Definition groupby_market (df : list Row) : list (string * list Row) :=
  map (fun mk => (mk, filter (fun r => String.eqb (df_market r) mk) df))
      (order_by text_leb (nodup string_dec (map df_market df))).

Definition empty (df : list Row) : bool :=
  match df with
  | [] => true
  | _ => false
  end.

Definition plot_product_trend (product : string) (market out_path : option string)
  : M World unit :=
  df <- lift_db (fetch_timeseries product market) ;;
  if empty df then raise (ValueError "No data to plot.")
  else
    plt_figure (8, 4.5)%float ;;;
    match given market with
    | Some mk =>
        plt_plot (map df_date df) (map df_price df) "o"
          (product ++ " - " ++ mk)%string
    | None =>
        for_each (groupby_market df) (fun g =>
          plt_plot (map df_date (snd g)) (map df_price (snd g)) "o" (fst g))
    end ;;;
    plt_title ("Price Trend: " ++ product ++
               match given market with
               | Some mk => " (" ++ mk ++ ")"
               | None => ""
               end)%string ;;;
    plt_xlabel "Date" ;;;
    plt_ylabel "Price (UGX per kg)" ;;;
    plt_grid 0.3%float ;;;
    plt_legend ;;;
    plt_tight_layout ;;;
    match given out_path with
    | Some path => plt_savefig path 150 ;;; plt_close
    | None => plt_show
    end.

(** ** States of a running program *)

(** The file after [DatabaseManager(db_path)] has run on a path where no
    file existed. *)
Definition fresh : Database := snd (DatabaseManager_init empty_file).

(** The direct calls of a client on a [DatabaseManager]. *)
Inductive Call : Type :=
| call_init_db
| call_add_product (name : string)
| call_add_market (name location : string)
| call_get_product_id (name : string)
| call_get_market_id (name : string)
| call_record_price (product market : string) (price : float) (date_iso : string)
| call_fetch_timeseries (product : string) (market : option string)
| call_list_products
| call_list_markets.

(** The file after a call, whether the call returned or raised. *)
Definition run (c : Call) (db : Database) : Database :=
  match c with
  | call_init_db => snd (_init_db db)
  | call_add_product name => snd (add_product name db)
  | call_add_market name location => snd (add_market name location db)
  | call_get_product_id name => snd (get_product_id name db)
  | call_get_market_id name => snd (get_market_id name db)
  | call_record_price product market price date_iso =>
      snd (record_price product market price date_iso db)
  | call_fetch_timeseries product market => snd (fetch_timeseries product market db)
  | call_list_products => snd (list_products db)
  | call_list_markets => snd (list_markets db)
  end.

Definition run_all (cs : list Call) (db : Database) : Database :=
  fold_left (fun d c => run c d) cs db.

(** The name a registration call passes is not the empty string. *)
Definition registers_nonempty (c : Call) : Prop :=
  match c with
  | call_add_product name | call_add_market name _ => name <> ""
  | _ => True
  end.

Definition product_names (db : Database) : list string :=
  map p_name (rows_of (products db)).

Definition market_names (db : Database) : list string :=
  map m_name (rows_of (markets db)).

Definition names_unique (db : Database) : Prop :=
  NoDup (product_names db) /\ NoDup (market_names db).

Definition names_nonempty (db : Database) : Prop :=
  Forall (fun n => n <> "") (product_names db) /\
  Forall (fun n => n <> "") (market_names db).

(** What the schema makes the engine keep: [UNIQUE(name)] and the primary
    keys of the two reference tables. *)
Definition constraints_hold (db : Database) : Prop :=
  names_unique db /\
  NoDup (map p_id (rows_of (products db))) /\
  NoDup (map m_id (rows_of (markets db))).

(** A price row is an observation of [product] (at [market], when a
    market is given) when the rows its two ids point at carry those
    names. *)
Definition observes (product : string) (market : option string)
    (db : Database) (pr : PriceRow) : Prop :=
  exists p m,
    In p (rows_of (products db)) /\ In m (rows_of (markets db)) /\
    pr_product_id pr = p_id p /\ pr_market_id pr = m_id m /\
    p_name p = product /\
    forall mk, given market = Some mk -> m_name m = mk.

Definition no_observations (product : string) (market : option string)
    (db : Database) : Prop :=
  forall pr, In pr (rows_of (prices db)) -> ~ observes product market db pr.

(** Ascending order of texts, as [ORDER BY] on a TEXT column gives it. *)
Definition ascending (names : list string) : Prop :=
  Sorted (fun a b => text_leb a b = true) names.

(** Every price row points at a product row and at a market row. *)
Definition referential_integrity (db : Database) : Prop :=
  forall pr,
    In pr (rows_of (prices db)) ->
    In (pr_product_id pr) (map p_id (rows_of (products db))) /\
    In (pr_market_id pr) (map m_id (rows_of (markets db))).

Definition error_of {A} (r : exn + A) : option exn :=
  match r with
  | inl e => Some e
  | inr _ => None
  end.

(** The exception a call ends with, if it ends with one. *)
Definition raised (c : Call) (db : Database) : option exn :=
  match c with
  | call_init_db => error_of (fst (_init_db db))
  | call_add_product name => error_of (fst (add_product name db))
  | call_add_market name location => error_of (fst (add_market name location db))
  | call_get_product_id name => error_of (fst (get_product_id name db))
  | call_get_market_id name => error_of (fst (get_market_id name db))
  | call_record_price product market price date_iso =>
      error_of (fst (record_price product market price date_iso db))
  | call_fetch_timeseries product market =>
      error_of (fst (fetch_timeseries product market db))
  | call_list_products => error_of (fst (list_products db))
  | call_list_markets => error_of (fst (list_markets db))
  end.

(** The calls that only read. *)
Definition is_query (c : Call) : bool :=
  match c with
  | call_get_product_id _ | call_get_market_id _ | call_fetch_timeseries _ _
  | call_list_products | call_list_markets => true
  | _ => false
  end.

(** The lines of a chart after one more line per group has been drawn on
    it, each under the name of its group. *)
Fixpoint group_lines (lines : list Line) (gs : list (string * list Row))
  : list Line :=
  match gs with
  | [] => lines
  | g :: gs' =>
      group_lines
        (lines ++ [mkLine (map df_date (snd g)) (map df_price (snd g)) "o"
                     (child_label (List.length lines) (fst g))])
        gs'
  end.

(** The chart [plot_product_trend] has drawn from the frame [df] by the
    time it reaches [savefig] or [show]. *)
Definition trend_lines (product : string) (market : option string)
    (df : list Row) : list Line :=
  match given market with
  | Some mk =>
      [mkLine (map df_date df) (map df_price df) "o" (product ++ " - " ++ mk)%string]
  | None => group_lines [] (groupby_market df)
  end.

Definition trend_figure (product : string) (market : option string)
    (df : list Row) : Figure :=
  mkFigure (8, 4.5)%float (trend_lines product market df)
    ("Price Trend: " ++ product ++
     match given market with
     | Some mk => " (" ++ mk ++ ")"
     | None => ""
     end)%string
    "Date" "Price (UGX per kg)" (Some 0.3%float) true true.

(** The date an ISO text stands for (the first day of year 1 for a text
    that is no ISO date), and the frame row of a query row whose date is
    in ISO form. *)
Definition iso_date (s : string) : Timestamp :=
  match strptime fmt_iso s with
  | Some t => t
  | None => mkTimestamp 1 1 1
  end.

Definition iso_row (q : SqlRow) : Row :=
  mkRow (q_product q) (q_market q) (q_price q) (iso_date (q_date q)).

(** ** Alphabetical order *)





(** ** Sample stores *)


(** An environment in which every image can be written where it is asked
    for, and one in which the format of "trend.xyz" is refused. *)
Definition writes_anywhere : string -> exn + string := fun path => inr path.

Definition refuses_xyz : string -> exn + string :=
  fun path =>
    if String.eqb path "trend.xyz"
    then inl (ValueError "Format 'xyz' is not supported")
    else inr path.

Definition maize_store : Database :=
  run_all [call_add_product "Beans"; call_add_market "Gulu" "North";
           call_add_product "Maize"; call_add_market "Kampala Central" "";
           call_record_price "Beans" "Kampala Central" 3000 "2024-01-10";
           call_record_price "Maize" "Gulu" 1100 "2024-01-12"] fresh.

Definition iso_store : Database :=
  run_all [call_add_product "Maize"; call_add_market "Kampala Central" "";
           call_add_market "Gulu" "North";
           call_record_price "Maize" "Kampala Central" 1200 "2024-01-15";
           call_record_price "Maize" "Gulu" 1100 "2023-12-01";
           call_record_price "Maize" "Gulu" 1150 "2024-02-01"] fresh.

Definition month_first_store : Database :=
  run_all [call_add_product "Maize"; call_add_market "Gulu" "North";
           call_record_price "Maize" "Gulu" 1100 "01/02/2024";
           call_record_price "Maize" "Gulu" 1000 "12/01/2023"] fresh.

(** * Properties *)

Example init_creates_tables :
  _init_db empty_file = (inr tt, mkDatabase (Some []) (Some []) (Some [])).
Proof. reflexivity. Qed.

Ltac run_monad :=
  cbv beta iota zeta
    delta [bind get put ret raise no_such_table execution_failed
           products_table markets_table prices_table products markets prices];
  cbn [fst snd].

(** ** Schema initialisation *)

Lemma init_db_result :
  forall db,
    _init_db db
    = (inr tt, mkDatabase (create_if_absent (products db))
                 (create_if_absent (markets db)) (create_if_absent (prices db))).
Proof. intros db. reflexivity. Qed.

Lemma init_db_has_schema : forall db, has_schema (snd (_init_db db)).
Proof.
  intros [[p|] [m|] [pr|]]; cbn; repeat split; discriminate.
Qed.

Lemma init_db_keeps_rows :
  forall db,
    let db' := snd (_init_db db) in
    rows_of (products db') = rows_of (products db) /\
    rows_of (markets db') = rows_of (markets db) /\
    rows_of (prices db') = rows_of (prices db).
Proof. intros [[p|] [m|] [pr|]]; cbn; auto. Qed.

Lemma init_db_twice :
  forall db, _init_db (snd (_init_db db)) = (inr tt, snd (_init_db db)).
Proof. intros [[p|] [m|] [pr|]]; reflexivity. Qed.

Lemma fresh_has_schema : has_schema fresh.
Proof. apply init_db_has_schema. Qed.



(** ** Lookups *)

Lemma existsb_product_name :
  forall name rows,
    existsb (fun r => String.eqb (p_name r) name) rows = true
    <-> In name (map p_name rows).
Proof.
  intros name rows. rewrite existsb_exists, in_map_iff.
  split; intros (r & H1 & H2).
  - apply String.eqb_eq in H2. eauto.
  - exists r. split; [assumption | now apply String.eqb_eq].
Qed.

Lemma existsb_market_name :
  forall name rows,
    existsb (fun r => String.eqb (m_name r) name) rows = true
    <-> In name (map m_name rows).
Proof.
  intros name rows. rewrite existsb_exists, in_map_iff.
  split; intros (r & H1 & H2).
  - apply String.eqb_eq in H2. eauto.
  - exists r. split; [assumption | now apply String.eqb_eq].
Qed.

Lemma find_product_none :
  forall name rows,
    ~ In name (map p_name rows) ->
    find (fun r => String.eqb (p_name r) name) rows = None.
Proof.
  intros name rows H.
  destruct (find _ rows) as [r|] eqn:E; [|reflexivity].
  apply find_some in E. destruct E as [E1 E2]. apply String.eqb_eq in E2.
  exfalso. apply H. apply in_map_iff. eauto.
Qed.

Lemma find_market_none :
  forall name rows,
    ~ In name (map m_name rows) ->
    find (fun r => String.eqb (m_name r) name) rows = None.
Proof.
  intros name rows H.
  destruct (find _ rows) as [r|] eqn:E; [|reflexivity].
  apply find_some in E. destruct E as [E1 E2]. apply String.eqb_eq in E2.
  exfalso. apply H. apply in_map_iff. eauto.
Qed.

Lemma has_schema_tables :
  forall db,
    has_schema db ->
    exists ps ms prs, db = mkDatabase (Some ps) (Some ms) (Some prs).
Proof.
  intros [[ps|] [ms|] [prs|]] (Hp & Hm & Hpr); cbn in *; try congruence.
  now exists ps, ms, prs.
Qed.

(** ** record_price on unknown names *)

(** C1. When the product name or the market name is not registered,
    [record_price] raises the error of the program for an unknown
    reference (the specification's ReferenceError: a [ValueError] whose
    message starts with "Unknown product or market") and the file is left
    as it was, so no price row is written. *)
Theorem record_price_unknown :
  forall db product market price date_iso,
    has_schema db ->
    ~ In product (product_names db) \/ ~ In market (market_names db) ->
    record_price product market price date_iso db
    = (inl (ValueError "Unknown product or market. Ensure they are added first."), db)
    /\ String.prefix "Unknown product or market"
         "Unknown product or market. Ensure they are added first." = true.
Proof.
  intros db product market price date_iso Hs Hunknown.
  destruct (has_schema_tables db Hs) as (ps & ms & prs & ->).
  split; [|reflexivity].
  unfold product_names, market_names in Hunknown. cbn [rows_of products markets] in Hunknown.
  unfold record_price, get_product_id, get_market_id, products_table, markets_table.
  run_monad. cbn [products markets].
  destruct Hunknown as [H | H].
  - rewrite (find_product_none _ _ H). cbn. reflexivity.
  - rewrite (find_market_none _ _ H). cbn.
    destruct (find _ ps); reflexivity.
Qed.

Lemma record_price_unknown_witness :
  has_schema fresh /\
  record_price "Maize" "Kampala Central" 1200 "2024-01-15" fresh
  = (inl (ValueError "Unknown product or market. Ensure they are added first."), fresh).
Proof.
  split; [apply fresh_has_schema|].
  apply (record_price_unknown fresh "Maize" "Kampala Central" 1200 "2024-01-15"
           fresh_has_schema).
  left. cbn. tauto.
Defined.

(** ** Registration *)

Lemma next_id_above : forall ids x, In x ids -> x < next_id ids.
Proof.
  unfold next_id. induction ids as [|i ids IH]; cbn [fold_right In];
    intros x H; [contradiction|].
  destruct H as [-> | H]; [lia|]. specialize (IH x H). lia.
Qed.

Lemma next_id_fresh : forall ids, ~ In (next_id ids) ids.
Proof. intros ids H. apply next_id_above in H. lia. Qed.

Lemma add_product_known :
  forall ps ms prs name,
    In name (map p_name ps) ->
    add_product name (mkDatabase (Some ps) ms prs)
    = (inr tt, mkDatabase (Some ps) ms prs).
Proof.
  intros ps ms prs name H. unfold add_product, products_table. run_monad.
  cbn [products]. apply existsb_product_name in H. now rewrite H.
Qed.

Lemma add_product_new :
  forall ps ms prs name,
    ~ In name (map p_name ps) ->
    add_product name (mkDatabase (Some ps) ms prs)
    = (inr tt,
       mkDatabase (Some (ps ++ [mkProductRow (next_id (map p_id ps)) name])) ms prs).
Proof.
  intros ps ms prs name H. unfold add_product, products_table. run_monad.
  cbn [products].
  destruct (existsb _ ps) eqn:E; [|reflexivity].
  apply existsb_product_name in E. contradiction.
Qed.

Lemma add_market_known :
  forall ps ms prs name location,
    In name (map m_name ms) ->
    add_market name location (mkDatabase ps (Some ms) prs)
    = (inr tt, mkDatabase ps (Some ms) prs).
Proof.
  intros ps ms prs name location H. unfold add_market, markets_table. run_monad.
  cbn [markets]. apply existsb_market_name in H. now rewrite H.
Qed.

Lemma add_market_new :
  forall ps ms prs name location,
    ~ In name (map m_name ms) ->
    add_market name location (mkDatabase ps (Some ms) prs)
    = (inr tt,
       mkDatabase ps
         (Some (ms ++ [mkMarketRow (next_id (map m_id ms)) name location])) prs).
Proof.
  intros ps ms prs name location H. unfold add_market, markets_table. run_monad.
  cbn [markets].
  destruct (existsb _ ms) eqn:E; [|reflexivity].
  apply existsb_market_name in E. contradiction.
Qed.

Lemma count_occ_once :
  forall (l : list string) x, NoDup l -> In x l -> count_occ string_dec l x = 1%nat.
Proof.
  intros l x Hnd Hin.
  apply (proj1 (NoDup_count_occ string_dec l)) with (x := x) in Hnd.
  apply (count_occ_In string_dec) in Hin. lia.
Qed.

Lemma NoDup_snoc :
  forall (A : Type) (l : list A) x, NoDup l -> ~ In x l -> NoDup (l ++ [x]).
Proof.
  intros A l x Hnd Hx. apply NoDup_app; [assumption | repeat constructor; auto |].
  intros a Ha [<- | []]. contradiction.
Qed.

(** C4. Calling [add_product] twice with one name leaves exactly one
    product row of that name: the second call returns normally and changes
    nothing.  The same holds for [add_market], whatever location the second
    call passes: the stored row is not overwritten. *)
Theorem add_twice_leaves_one_row :
  forall db name location location',
    has_schema db ->
    names_unique db ->
    (exists db1,
        add_product name db = (inr tt, db1) /\
        add_product name db1 = (inr tt, db1) /\
        count_occ string_dec (product_names db1) name = 1%nat) /\
    (exists db1,
        add_market name location db = (inr tt, db1) /\
        add_market name location' db1 = (inr tt, db1) /\
        count_occ string_dec (market_names db1) name = 1%nat).
Proof.
  intros db name location location' Hs [Hup Hum].
  destruct (has_schema_tables db Hs) as (ps & ms & prs & ->).
  unfold product_names, market_names in *. cbn [rows_of products markets] in *.
  split.
  - destruct (in_dec string_dec name (map p_name ps)) as [Hin | Hnin].
    + exists (mkDatabase (Some ps) (Some ms) (Some prs)).
      rewrite add_product_known by assumption.
      repeat split. cbn. now apply count_occ_once.
    + eexists. rewrite add_product_new by assumption.
      split; [reflexivity|].
      assert (Hin' : In name (map p_name (ps ++ [mkProductRow (next_id (map p_id ps)) name]))).
      { rewrite map_app, in_app_iff. right. now left. }
      split; [now apply add_product_known|].
      cbn [rows_of products]. apply count_occ_once; [|assumption].
      rewrite map_app. now apply NoDup_snoc.
  - destruct (in_dec string_dec name (map m_name ms)) as [Hin | Hnin].
    + exists (mkDatabase (Some ps) (Some ms) (Some prs)).
      rewrite !add_market_known by assumption.
      repeat split. cbn. now apply count_occ_once.
    + eexists. rewrite add_market_new by assumption.
      split; [reflexivity|].
      assert (Hin' : In name (map m_name (ms ++ [mkMarketRow (next_id (map m_id ms)) name location]))).
      { rewrite map_app, in_app_iff. right. now left. }
      split; [now apply add_market_known|].
      cbn [rows_of markets]. apply count_occ_once; [|assumption].
      rewrite map_app. now apply NoDup_snoc.
Qed.

Lemma fresh_names_unique : names_unique fresh.
Proof. split; constructor. Qed.

Lemma add_twice_leaves_one_row_witness :
  exists db1,
    add_market "Gulu" "North" fresh = (inr tt, db1) /\
    add_market "Gulu" "West" db1 = (inr tt, db1) /\
    count_occ string_dec (market_names db1) "Gulu" = 1%nat.
Proof.
  exact (proj2 (add_twice_leaves_one_row fresh "Gulu" "North" "West"
                  fresh_has_schema fresh_names_unique)).
Defined.

(** ** The invariant on names *)

Lemma run_tables :
  forall c db,
    (rows_of (products (run c db)) = rows_of (products db) \/
     exists name,
       c = call_add_product name /\ ~ In name (product_names db) /\
       rows_of (products (run c db))
       = rows_of (products db)
           ++ [mkProductRow (next_id (map p_id (rows_of (products db)))) name]) /\
    (rows_of (markets (run c db)) = rows_of (markets db) \/
     exists name location,
       c = call_add_market name location /\ ~ In name (market_names db) /\
       rows_of (markets (run c db))
       = rows_of (markets db)
           ++ [mkMarketRow (next_id (map m_id (rows_of (markets db)))) name location]).
Proof.
  intros c [ps ms prs]. unfold product_names, market_names.
  destruct c; cbn [run].
  - destruct (init_db_keeps_rows (mkDatabase ps ms prs)) as (H1 & H2 & _).
    split; left; assumption.
  - destruct ps as [ps|]; [|split; left; reflexivity].
    destruct (in_dec string_dec name (map p_name ps)) as [Hin | Hnin].
    + rewrite add_product_known by assumption. split; left; reflexivity.
    + rewrite add_product_new by assumption. split; [right | left; reflexivity].
      exists name. repeat split. assumption.
  - destruct ms as [ms|]; [|destruct ps; split; left; reflexivity].
    destruct (in_dec string_dec name (map m_name ms)) as [Hin | Hnin].
    + rewrite add_market_known by assumption. split; left; reflexivity.
    + rewrite add_market_new by assumption. split; [left; reflexivity | right].
      exists name, location. repeat split. assumption.
  - destruct ps; split; left; reflexivity.
  - destruct ms; split; left; reflexivity.
  - unfold record_price, get_product_id, get_market_id, insert_price,
      products_table, markets_table, prices_table. run_monad. cbn [products markets prices].
    destruct ps as [ps|]; [|split; left; reflexivity].
    destruct ms as [ms|]; [|split; left; reflexivity].
    destruct (find _ ps); cbn; [|split; left; reflexivity].
    destruct (find _ ms); cbn; [|split; left; reflexivity].
    destruct prs as [prs|]; cbn; [|split; left; reflexivity].
    destruct (is_nan price); split; left; reflexivity.
  - unfold fetch_timeseries, read_sql_query, convert_dates,
      products_table, markets_table, prices_table. run_monad. cbn [products markets prices].
    destruct prs as [prs|]; [|split; left; reflexivity].
    destruct ps as [ps|]; [|split; left; reflexivity].
    destruct ms as [ms|]; [|split; left; reflexivity].
    destruct (to_datetime (map q_date _)); split; left; reflexivity.
  - destruct ps; split; left; reflexivity.
  - destruct ms; split; left; reflexivity.
Qed.

Lemma run_names_unique :
  forall c db, names_unique db -> names_unique (run c db).
Proof.
  intros c db [Hup Hum].
  destruct (run_tables c db) as [Hp Hm].
  unfold names_unique, product_names, market_names in *. split.
  - destruct Hp as [-> | (name & _ & Hnin & ->)]; [assumption|].
    rewrite map_app. now apply NoDup_snoc.
  - destruct Hm as [-> | (name & location & _ & Hnin & ->)]; [assumption|].
    rewrite map_app. now apply NoDup_snoc.
Qed.

Lemma run_names_nonempty :
  forall c db,
    registers_nonempty c -> names_nonempty db -> names_nonempty (run c db).
Proof.
  intros c db Hreg [Hnp Hnm].
  destruct (run_tables c db) as [Hp Hm].
  unfold names_nonempty, product_names, market_names in *. split.
  - destruct Hp as [-> | (name & -> & _ & ->)]; [assumption|].
    rewrite map_app. apply Forall_app. split; [assumption|].
    constructor; [exact Hreg | constructor].
  - destruct Hm as [-> | (name & location & -> & _ & ->)]; [assumption|].
    rewrite map_app. apply Forall_app. split; [assumption|].
    constructor; [exact Hreg | constructor].
Qed.

(** C9, as the code has it. Every call on the store keeps product names
    unique and market names unique.  Names also stay non-empty as long as
    the call does not itself register the empty name: the schema asks for
    [NOT NULL], and nothing checks for an empty string. *)
Theorem names_invariant_preserved :
  forall c db,
    names_unique db ->
    names_unique (run c db) /\
    (registers_nonempty c -> names_nonempty db -> names_nonempty (run c db)).
Proof.
  intros c db Hu. split; [now apply run_names_unique | apply run_names_nonempty].
Qed.

Lemma names_invariant_preserved_witness :
  names_unique (run (call_add_product "Maize") fresh) /\
  names_nonempty (run (call_add_product "Maize") fresh).
Proof.
  destruct (names_invariant_preserved (call_add_product "Maize") fresh
              fresh_names_unique) as [Hu Hn].
  split; [exact Hu|].
  apply Hn; [discriminate | split; constructor].
Defined.

(** C9, as the specification words it, fails: on a new store, where every
    name is trivially non-empty and unique, [add_product ""] stores a
    product whose name is empty. *)
Lemma empty_name_is_accepted :
  (names_nonempty fresh /\ names_unique fresh) /\
  add_product "" fresh
  = (inr tt, mkDatabase (Some [mkProductRow 1 ""]) (Some []) (Some [])) /\
  ~ (names_nonempty (run (call_add_product "") fresh)
     /\ names_unique (run (call_add_product "") fresh)).
Proof.
  split; [split; [split; constructor | apply fresh_names_unique]|].
  split; [reflexivity|].
  intros [[H _] _]. cbn in H. inversion H as [|x l Hx Hl]; subst. now apply Hx.
Qed.

(** ** ORDER BY returns its rows in order *)

Section Ordering.
Context {A : Type} (leb : A -> A -> bool).
Hypothesis leb_total : forall a b, leb a b = true \/ leb b a = true.

Lemma insert_by_perm : forall x l, Permutation (x :: l) (insert_by leb x l).
Proof.
  intros x l. induction l as [|y l IH]; cbn; [reflexivity|].
  destruct (leb x y); [reflexivity|].
  rewrite perm_swap. now constructor.
Qed.

Lemma order_by_perm : forall l, Permutation l (order_by leb l).
Proof.
  induction l as [|x l IH]; cbn; [constructor|].
  rewrite <- insert_by_perm. now constructor.
Qed.

Lemma insert_by_hd :
  forall a x l,
    leb a x = true ->
    HdRel (fun a b => leb a b = true) a l ->
    HdRel (fun a b => leb a b = true) a (insert_by leb x l).
Proof.
  intros a x l Hax Hal. destruct l as [|y l]; cbn; [now constructor|].
  destruct (leb x y); constructor; [assumption|].
  now inversion Hal.
Qed.

Lemma insert_by_sorted :
  forall x l,
    Sorted (fun a b => leb a b = true) l ->
    Sorted (fun a b => leb a b = true) (insert_by leb x l).
Proof.
  intros x l Hs. induction Hs as [|y l Hs IH Hhd]; cbn; [repeat constructor|].
  destruct (leb x y) eqn:E.
  - constructor; [now constructor | now constructor].
  - constructor; [assumption|].
    apply insert_by_hd; [|assumption].
    destruct (leb_total x y) as [H | H]; [congruence | exact H].
Qed.

Lemma order_by_sorted :
  forall l, Sorted (fun a b => leb a b = true) (order_by leb l).
Proof.
  induction l as [|x l IH]; cbn; [constructor|]. now apply insert_by_sorted.
Qed.

End Ordering.

Lemma Sorted_map :
  forall (A B : Type) (f : A -> B) (R : B -> B -> Prop) (l : list A),
    Sorted (fun a b => R (f a) (f b)) l -> Sorted R (map f l).
Proof.
  intros A B f R l H. induction H as [|a l Hs IH Hhd]; cbn; constructor.
  - assumption.
  - destruct Hhd; cbn; now constructor.
Qed.

Lemma text_leb_total : forall a b, text_leb a b = true \/ text_leb b a = true.
Proof. exact String.leb_total. Qed.

(** ** Every call keeps the schema *)

Lemma record_price_tables :
  forall ps ms prs product market price date_iso,
    exists r prs',
      record_price product market price date_iso
        (mkDatabase (Some ps) (Some ms) (Some prs))
      = (r, mkDatabase (Some ps) (Some ms) (Some prs')).
Proof.
  intros. unfold record_price, get_product_id, get_market_id, insert_price.
  run_monad.
  destruct (find _ ps); cbn [option_map]; [|eauto].
  destruct (find _ ms); cbn [option_map]; [|eauto].
  destruct (is_nan price); eauto.
Qed.

Lemma fetch_timeseries_tables :
  forall ps ms prs product market,
    let db := mkDatabase (Some ps) (Some ms) (Some prs) in
    let df := order_by (fun a b => text_leb (q_date a) (q_date b))
                (join_where product (given market) ps ms prs) in
    fetch_timeseries product market db
    = match to_datetime (map q_date df) with
      | inr ts =>
          (inr (map (fun rt => mkRow (q_product (fst rt)) (q_market (fst rt))
                                 (q_price (fst rt)) (snd rt))
                  (combine df ts)), db)
      | inl e => (inl e, db)
      end.
Proof.
  intros. subst db df.
  unfold fetch_timeseries, read_sql_query, convert_dates. run_monad.
  destruct (to_datetime (map q_date _)); reflexivity.
Qed.

Lemma run_has_schema : forall c db, has_schema db -> has_schema (run c db).
Proof.
  intros c db Hs. destruct (has_schema_tables db Hs) as (ps & ms & prs & ->).
  destruct c; cbn [run]; try exact Hs.
  - destruct (in_dec string_dec name (map p_name ps)).
    + now rewrite add_product_known.
    + rewrite add_product_new by assumption. repeat split; discriminate.
  - destruct (in_dec string_dec name (map m_name ms)).
    + now rewrite add_market_known.
    + rewrite add_market_new by assumption. repeat split; discriminate.
  - destruct (record_price_tables ps ms prs product market price date_iso)
      as (r & prs' & ->).
    repeat split; discriminate.
  - rewrite fetch_timeseries_tables.
    destruct (to_datetime _); exact Hs.
Qed.

Lemma run_all_has_schema :
  forall cs db, has_schema db -> has_schema (run_all cs db).
Proof.
  unfold run_all. induction cs as [|c cs IH]; cbn; intros db Hs; [assumption|].
  apply IH. now apply run_has_schema.
Qed.

(** ** Listings *)








Example listings_example :
  let db := run_all [call_add_market "Nakasero" "Kampala"; call_add_product "Rice";
                     call_add_product "Beans"; call_add_market "Gulu" "North";
                     call_add_product "Maize"; call_add_product "Rice"] fresh in
  list_products db = (inr ["Beans"; "Maize"; "Rice"], db) /\
  list_markets db = (inr [("Gulu", "North"); ("Nakasero", "Kampala")], db).
Proof. split; reflexivity. Qed.

(** ** fetch_timeseries without observations *)

Lemma flat_map_nil :
  forall (A B : Type) (f : A -> list B) (l : list A),
    (forall x, In x l -> f x = []) -> flat_map f l = [].
Proof.
  intros A B f l H. induction l as [|x l IH]; cbn; [reflexivity|].
  rewrite (H x) by now left. apply IH. intros y Hy. apply H. now right.
Qed.

Lemma join_where_none :
  forall product market ps ms prs,
    no_observations product market (mkDatabase (Some ps) (Some ms) (Some prs)) ->
    join_where product (given market) ps ms prs = [].
Proof.
  intros product market ps ms prs Hno. unfold join_where.
  apply flat_map_nil. intros pr Hpr.
  apply flat_map_nil. intros p Hp. apply filter_In in Hp. destruct Hp as [Hp Hpid].
  apply flat_map_nil. intros m Hm. apply filter_In in Hm. destruct Hm as [Hm Hmid].
  apply Z.eqb_eq in Hpid, Hmid.
  destruct (String.eqb_spec (p_name p) product) as [Hname | Hname]; [|reflexivity].
  cbn [andb].
  destruct (given market) as [mk|] eqn:Hg.
  - destruct (String.eqb_spec (m_name m) mk) as [Hmk | Hmk]; [|reflexivity].
    exfalso. apply (Hno pr Hpr). exists p, m. repeat split; try assumption.
    intros mk' E. rewrite Hg in E. congruence.
  - exfalso. apply (Hno pr Hpr). exists p, m. repeat split; try assumption.
    intros mk' E. rewrite Hg in E. discriminate.
Qed.

Lemma unregistered_no_observations :
  forall product market db,
    ~ In product (product_names db) -> no_observations product market db.
Proof.
  intros product market db Hnin pr _ (p & m & Hp & _ & _ & _ & Hname & _).
  apply Hnin. unfold product_names. apply in_map_iff. eauto.
Qed.

(** C5. When no stored observation matches the product (and the market,
    when one is given), in particular when the product was never
    registered, [fetch_timeseries] returns the empty frame: it does not
    raise, and the file is as before. *)
Theorem fetch_without_observations :
  forall db product market,
    has_schema db ->
    no_observations product market db \/ ~ In product (product_names db) ->
    fetch_timeseries product market db = (inr [], db).
Proof.
  intros db product market Hs Hno.
  assert (Hno' : no_observations product market db).
  { destruct Hno as [H | H]; [exact H | now apply unregistered_no_observations]. }
  destruct (has_schema_tables db Hs) as (ps & ms & prs & ->).
  rewrite fetch_timeseries_tables.
  rewrite (join_where_none _ _ _ _ _ Hno'). reflexivity.
Qed.

Lemma fetch_without_observations_witness :
  fetch_timeseries "Maize" (Some "Gulu") fresh = (inr [], fresh).
Proof.
  apply (fetch_without_observations fresh "Maize" (Some "Gulu") fresh_has_schema).
  right. cbn. tauto.
Defined.

(** ** plot_product_trend without data *)

Lemma fetch_timeseries_keeps_db :
  forall db product market, snd (fetch_timeseries product market db) = db.
Proof.
  intros [ps ms prs] product market.
  destruct prs as [prs|], ps as [ps|], ms as [ms|]; try reflexivity.
  rewrite fetch_timeseries_tables. destruct (to_datetime _); reflexivity.
Qed.

(** C6. When the time-series query returns no rows, [plot_product_trend]
    raises the error of the program for missing data (the specification's
    NoDataError: a [ValueError] with message "No data to plot.") before
    any figure is opened: no file is written at [out_path] or anywhere
    else, nothing is shown, and the store is unchanged. *)
Theorem plot_without_data :
  forall w product market out_path,
    fst (fetch_timeseries product market (w_db w)) = inr [] ->
    plot_product_trend product market out_path w
    = (inl (ValueError "No data to plot."), w)
    /\ String.prefix "No data to plot" "No data to plot." = true.
Proof.
  intros [db figs files shown env] product market out_path H.
  split; [|reflexivity].
  cbn [w_db] in H.
  pose proof (fetch_timeseries_keeps_db db product market) as Hdb.
  unfold plot_product_trend, lift_db, bind.
  cbn [w_db w_figures w_files w_shown w_savefig].
  destruct (fetch_timeseries product market db) as [r db'].
  cbn [fst snd] in *. subst r db'. reflexivity.
Qed.

Lemma plot_without_data_witness :
  plot_product_trend "Maize" None (Some "trend.png")
    (mkWorld fresh [] [] [] writes_anywhere)
  = (inl (ValueError "No data to plot."), mkWorld fresh [] [] [] writes_anywhere).
Proof.
  apply (plot_without_data (mkWorld fresh [] [] [] writes_anywhere) "Maize" None
           (Some "trend.png")).
  reflexivity.
Defined.

(** ** Recording, then fetching *)

Lemma find_product_some :
  forall name rows,
    In name (map p_name rows) ->
    exists p, find (fun r => String.eqb (p_name r) name) rows = Some p /\
              In p rows /\ p_name p = name.
Proof.
  intros name rows H.
  destruct (find (fun r => String.eqb (p_name r) name) rows) as [p|] eqn:E.
  - exists p. apply find_some in E. destruct E as [E1 E2].
    apply String.eqb_eq in E2. auto.
  - exfalso. apply in_map_iff in H. destruct H as (r & Hr & Hin).
    apply (find_none _ _ E) in Hin. apply String.eqb_neq in Hin. contradiction.
Qed.

Lemma find_market_some :
  forall name rows,
    In name (map m_name rows) ->
    exists m, find (fun r => String.eqb (m_name r) name) rows = Some m /\
              In m rows /\ m_name m = name.
Proof.
  intros name rows H.
  destruct (find (fun r => String.eqb (m_name r) name) rows) as [m|] eqn:E.
  - exists m. apply find_some in E. destruct E as [E1 E2].
    apply String.eqb_eq in E2. auto.
  - exfalso. apply in_map_iff in H. destruct H as (r & Hr & Hin).
    apply (find_none _ _ E) in Hin. apply String.eqb_neq in Hin. contradiction.
Qed.

Lemma filter_key_absent :
  forall (A : Type) (key : A -> Z) (l : list A) (k : Z),
    ~ In k (map key l) -> filter (fun y => Z.eqb k (key y)) l = [].
Proof.
  intros A key l k. induction l as [|a l IH]; cbn; intros H; [reflexivity|].
  destruct (Z.eqb_spec k (key a)) as [E | E]; [exfalso; auto|].
  apply IH. intros Hin. apply H. now right.
Qed.

(** A primary key picks out one row. *)
Lemma filter_key :
  forall (A : Type) (key : A -> Z) (l : list A) (x : A),
    NoDup (map key l) -> In x l ->
    filter (fun y => Z.eqb (key x) (key y)) l = [x].
Proof.
  intros A key l x. induction l as [|a l IH]; cbn; intros Hnd Hin; [contradiction|].
  inversion Hnd as [|k ks Hk Hnd']; subst.
  destruct Hin as [-> | Hin].
  - rewrite Z.eqb_refl. f_equal. now apply filter_key_absent.
  - destruct (Z.eqb_spec (key x) (key a)) as [E | E].
    + exfalso. apply Hk. rewrite <- E. now apply in_map.
    + now apply IH.
Qed.

Lemma strptime_iso_guess :
  forall s t,
    strptime fmt_iso s = Some t -> to_datetime [s] = inr [t].
Proof.
  intros s t H. unfold to_datetime, guess_datetime_format. cbn [find].
  rewrite H. cbn [parse_all]. now rewrite H.
Qed.

(** The round trip for any registered pair: one observation recorded for a
    pair that had none, with a price that is a number and a date in the
    documented form, comes back as the only row (the price as the REAL
    column gives it back). *)
Lemma record_then_fetch :
  forall db product market price date_iso t,
    has_schema db ->
    constraints_hold db ->
    In product (product_names db) ->
    In market (market_names db) ->
    no_observations product (Some market) db ->
    market <> "" ->
    is_nan price = false ->
    strptime fmt_iso date_iso = Some t ->
    exists db',
      record_price product market price date_iso db = (inr tt, db') /\
      fetch_timeseries product (Some market) db'
      = (inr [mkRow product market (sqlite_real price) t], db').
Proof.
  intros db product market price date_iso t Hs (_ & Hpk & Hmk) Hp Hm Hno Hne Hnan Ht.
  destruct (has_schema_tables db Hs) as (ps & ms & prs & ->).
  unfold product_names, market_names in *. cbn [rows_of products markets] in *.
  destruct (find_product_some _ _ Hp) as (p & Fp & Inp & Np).
  destruct (find_market_some _ _ Hm) as (m & Fm & Inm & Nm).
  eexists. split.
  - unfold record_price, get_product_id, get_market_id, insert_price. run_monad.
    rewrite Fp, Fm. cbn [option_map]. rewrite Hnan. reflexivity.
  - rewrite fetch_timeseries_tables.
    assert (Hg : given (Some market) = Some market).
    { destruct market; [contradiction | reflexivity]. }
    assert (Hold : join_where product (given (Some market)) ps ms prs = []).
    { now apply join_where_none. }
    unfold join_where in *. rewrite flat_map_app, Hold. cbn [app flat_map].
    cbn [pr_product_id pr_market_id pr_price pr_date].
    rewrite (filter_key _ p_id ps p Hpk Inp), (filter_key _ m_id ms m Hmk Inm).
    cbn [flat_map app]. rewrite Hg, Np, Nm, !String.eqb_refl. cbn [andb app].
    cbn [order_by fold_right insert_by map q_date].
    rewrite (strptime_iso_guess _ _ Ht). reflexivity.
Qed.

(** C3. In a store where "Maize" and "Kampala Central" are registered and
    no observation exists for the pair, recording 1200.0 on "2024-01-15"
    and then fetching the pair yields exactly one row: market "Kampala
    Central", price 1200.0, date 2024-01-15 (and product "Maize"). *)
Theorem round_trip :
  forall db,
    has_schema db ->
    constraints_hold db ->
    In "Maize" (product_names db) ->
    In "Kampala Central" (market_names db) ->
    no_observations "Maize" (Some "Kampala Central") db ->
    exists db',
      record_price "Maize" "Kampala Central" 1200 "2024-01-15" db = (inr tt, db') /\
      fetch_timeseries "Maize" (Some "Kampala Central") db'
      = (inr [mkRow "Maize" "Kampala Central" 1200 (mkTimestamp 2024 1 15)], db').
Proof.
  intros db Hs Hc Hp Hm Hno.
  refine (record_then_fetch db "Maize" "Kampala Central" 1200 "2024-01-15"
            (mkTimestamp 2024 1 15) Hs Hc Hp Hm Hno _ _ _);
    [discriminate | reflexivity | reflexivity].
Qed.

Lemma round_trip_witness :
  exists db',
    record_price "Maize" "Kampala Central" 1200 "2024-01-15" maize_store
    = (inr tt, db') /\
    fetch_timeseries "Maize" (Some "Kampala Central") db'
    = (inr [mkRow "Maize" "Kampala Central" 1200 (mkTimestamp 2024 1 15)], db').
Proof.
  apply (round_trip maize_store).
  - repeat split; discriminate.
  - repeat split; cbn; repeat constructor; cbn; intuition discriminate.
  - cbn. tauto.
  - cbn. tauto.
  - intros pr Hpr (p & m & Hp & Hm & E1 & E2 & E3 & E4).
    specialize (E4 "Kampala Central" eq_refl).
    cbn in Hpr, Hp, Hm.
    destruct Hp as [<- | [<- | []]]; try discriminate E3.
    destruct Hm as [<- | [<- | []]]; try discriminate E4.
    destruct Hpr as [<- | [<- | []]]; cbn in E1, E2; discriminate.
Defined.

(** ** Constraints of the engine *)

Lemma fresh_constraints_hold : constraints_hold fresh.
Proof. repeat split; constructor. Qed.

Lemma run_constraints_hold :
  forall c db, constraints_hold db -> constraints_hold (run c db).
Proof.
  intros c db (Hu & Hp & Hm).
  split; [now apply run_names_unique|].
  destruct (run_tables c db) as [Tp Tm]. split.
  - destruct Tp as [-> | (name & _ & _ & ->)]; [assumption|].
    rewrite map_app. apply NoDup_snoc; [assumption | apply next_id_fresh].
  - destruct Tm as [-> | (name & location & _ & _ & ->)]; [assumption|].
    rewrite map_app. apply NoDup_snoc; [assumption | apply next_id_fresh].
Qed.

(** Every state a program reaches from a new file has the schema and
    meets the constraints. *)
Lemma reachable_invariants :
  forall cs, has_schema (run_all cs fresh) /\ constraints_hold (run_all cs fresh).
Proof.
  intros cs. split; [apply run_all_has_schema, fresh_has_schema|].
  unfold run_all. generalize fresh fresh_constraints_hold.
  induction cs as [|c cs IH]; cbn; intros db H; [assumption|].
  apply IH. now apply run_constraints_hold.
Qed.

(** ** Dates in ISO form: the order of the text is the order of the dates *)

Lemma digit_range : forall c d, digit c = Some d -> 0 <= d <= 9.
Proof.
  unfold digit. intros c d H.
  destruct (48 <=? Z.of_N (N_of_ascii c)) eqn:E1; cbn [andb] in H; [|discriminate].
  destruct (Z.of_N (N_of_ascii c) <=? 57) eqn:E2; [|discriminate].
  injection H as <-. lia.
Qed.

Lemma digit_compare :
  forall c c' d d',
    digit c = Some d -> digit c' = Some d' -> Ascii.compare c c' = (d ?= d').
Proof.
  unfold digit, Ascii.compare. intros c c' d d' H H'.
  destruct ((48 <=? Z.of_N (N_of_ascii c)) && (Z.of_N (N_of_ascii c) <=? 57));
    [|discriminate].
  destruct ((48 <=? Z.of_N (N_of_ascii c')) && (Z.of_N (N_of_ascii c') <=? 57));
    [|discriminate].
  injection H as <-. injection H' as <-.
  rewrite <- N2Z.inj_compare.
  destruct (Z.compare_spec (Z.of_N (N_of_ascii c)) (Z.of_N (N_of_ascii c')));
    symmetry; [apply Z.compare_eq_iff | apply Z.compare_lt_iff | apply Z.compare_gt_iff];
    lia.
Qed.

Lemma take_digits_range :
  forall n s v rest,
    take_digits n s = Some (v, rest) -> 0 <= v < 10 ^ Z.of_nat n.
Proof.
  induction n as [|n IH]; intros s v rest H.
  - cbn in H. injection H as <- _. cbn. lia.
  - cbn [take_digits] in H. destruct s as [|c s]; [discriminate|].
    destruct (digit c) as [d|] eqn:Ed; [|discriminate].
    destruct (take_digits n s) as [[v' rest']|] eqn:Et; [|discriminate].
    injection H as <- _. apply digit_range in Ed. apply IH in Et.
    rewrite Nat2Z.inj_succ, Z.pow_succ_r by lia. nia.
Qed.

Lemma compare_digits_lex :
  forall d d' v v' b,
    0 <= v < b -> 0 <= v' < b ->
    (d * b + v ?= d' * b + v')
    = match d ?= d' with Eq => v ?= v' | c => c end.
Proof.
  intros d d' v v' b Hv Hv'.
  destruct (Z.compare_spec d d') as [-> | Hlt | Hgt].
  - destruct (Z.compare_spec v v');
      [apply Z.compare_eq_iff | apply Z.compare_lt_iff | apply Z.compare_gt_iff]; lia.
  - apply Z.compare_lt_iff. nia.
  - apply Z.compare_gt_iff. nia.
Qed.

(** Two texts that both start with [n] digits compare as the numbers the
    digits spell, and as their rests when the numbers agree. *)
Lemma take_digits_compare :
  forall n a b va ra vb rb,
    take_digits n a = Some (va, ra) ->
    take_digits n b = Some (vb, rb) ->
    String.compare a b
    = match va ?= vb with Eq => String.compare ra rb | c => c end.
Proof.
  induction n as [|n IH]; intros a b va ra vb rb Ha Hb.
  - cbn in Ha, Hb. injection Ha as <- <-. injection Hb as <- <-. reflexivity.
  - cbn [take_digits] in Ha, Hb.
    destruct a as [|c a]; [discriminate|]. destruct b as [|c' b]; [discriminate|].
    destruct (digit c) as [d|] eqn:Ed; [|discriminate].
    destruct (digit c') as [d'|] eqn:Ed'; [|discriminate].
    destruct (take_digits n a) as [[v r]|] eqn:Eta; [|discriminate].
    destruct (take_digits n b) as [[v' r']|] eqn:Etb; [|discriminate].
    injection Ha as <- <-. injection Hb as <- <-.
    cbn [String.compare]. rewrite (digit_compare _ _ _ _ Ed Ed').
    rewrite compare_digits_lex
      by (eapply take_digits_range; eassumption).
    rewrite (IH _ _ _ _ _ _ Eta Etb).
    destruct (d ?= d'); reflexivity.
Qed.

Lemma ascii_compare_refl : forall c, Ascii.compare c c = Eq.
Proof. intros c. unfold Ascii.compare. apply N.compare_refl. Qed.

Lemma scan_iso_inv :
  forall s f0 f,
    scan fmt_iso s f0 = Some f ->
    exists y m d s2 s4,
      take_digits 4 s = Some (y, String "-" s2) /\
      take_digits 2 s2 = Some (m, String "-" s4) /\
      take_digits 2 s4 = Some (d, EmptyString) /\
      f = (Some y, Some m, Some d).
Proof.
  intros s [[y0 m0] d0] f H. unfold fmt_iso in H. cbn [scan] in H.
  destruct (take_digits 4 s) as [[y s1]|] eqn:Ey; [|discriminate].
  destruct s1 as [|c1 s2]; [discriminate|].
  destruct (Ascii.eqb_spec "-" c1) as [<- | _]; [|discriminate].
  destruct (take_digits 2 s2) as [[m s3]|] eqn:Em; [|discriminate].
  destruct s3 as [|c3 s4]; [discriminate|].
  destruct (Ascii.eqb_spec "-" c3) as [<- | _]; [|discriminate].
  destruct (take_digits 2 s4) as [[d s5]|] eqn:Ed; [|discriminate].
  destruct s5; [|discriminate]. injection H as <-.
  exists y, m, d, s2, s4. auto.
Qed.

Lemma strptime_iso_compare :
  forall a b ta tb,
    strptime fmt_iso a = Some ta ->
    strptime fmt_iso b = Some tb ->
    String.compare a b = Timestamp_compare ta tb.
Proof.
  unfold strptime. intros a b ta tb Ha Hb.
  destruct (scan fmt_iso a (None, None, None)) as [fa|] eqn:Sa; [|discriminate].
  destruct (scan fmt_iso b (None, None, None)) as [fb|] eqn:Sb; [|discriminate].
  apply scan_iso_inv in Sa, Sb.
  destruct Sa as (y & m & d & a2 & a4 & Ay & Am & Ad & ->).
  destruct Sb as (y' & m' & d' & b2 & b4 & By & Bm & Bd & ->).
  destruct (valid_date y m d); [|discriminate].
  destruct (valid_date y' m' d'); [|discriminate].
  injection Ha as <-. injection Hb as <-.
  unfold Timestamp_compare. cbn [year month day].
  rewrite (take_digits_compare _ _ _ _ _ _ _ Ay By). cbn [String.compare].
  rewrite ascii_compare_refl.
  rewrite (take_digits_compare _ _ _ _ _ _ _ Am Bm). cbn [String.compare].
  rewrite ascii_compare_refl.
  rewrite (take_digits_compare _ _ _ _ _ _ _ Ad Bd). cbn [String.compare].
  destruct (y ?= y'); [|reflexivity..].
  destruct (m ?= m'); [|reflexivity..].
  destruct (d ?= d'); reflexivity.
Qed.

Lemma strptime_iso_leb :
  forall a b ta tb,
    strptime fmt_iso a = Some ta ->
    strptime fmt_iso b = Some tb ->
    text_leb a b = Timestamp_leb ta tb.
Proof.
  intros a b ta tb Ha Hb. unfold text_leb, String.leb, Timestamp_leb.
  now rewrite (strptime_iso_compare a b ta tb Ha Hb).
Qed.

Lemma iso_form_not_us : forall s, iso_form s = true -> strptime fmt_us s = None.
Proof.
  unfold iso_form. intros s H.
  destruct (scan fmt_iso s (None, None, None)) as [f|] eqn:S; [|discriminate].
  apply scan_iso_inv in S. destruct S as (y & m & d & s2 & s4 & Ey & _).
  cbn [take_digits] in Ey.
  destruct s as [|c1 s]; [discriminate|].
  destruct (digit c1) as [d1|] eqn:D1; [|discriminate].
  destruct s as [|c2 s]; [discriminate|].
  destruct (digit c2) as [d2|] eqn:D2; [|discriminate].
  destruct s as [|c3 s]; [discriminate|].
  destruct (digit c3) as [d3|] eqn:D3; [|discriminate].
  unfold strptime, fmt_us. cbn [scan take_digits]. rewrite D1, D2.
  destruct (Ascii.eqb_spec "/" c3) as [<- | _]; [|reflexivity].
  discriminate D3.
Qed.

Lemma parse_all_each :
  forall fmt col ts,
    parse_all fmt col = inr ts ->
    Forall2 (fun s t => strptime fmt s = Some t) col ts.
Proof.
  intros fmt. induction col as [|s col IH]; cbn; intros ts H.
  - injection H as <-. constructor.
  - destruct (strptime fmt s) as [t|] eqn:E; [|discriminate].
    destruct (parse_all fmt col) as [e | ts']; [discriminate|].
    injection H as <-. constructor; auto.
Qed.

(** A column in ISO form is read with the ISO format. *)
Lemma to_datetime_iso :
  forall col ts,
    Forall (fun s => iso_form s = true) col ->
    to_datetime col = inr ts ->
    Forall2 (fun s t => strptime fmt_iso s = Some t) col ts.
Proof.
  intros col ts Hiso H. destruct col as [|s col]; cbn in H.
  - injection H as <-. constructor.
  - unfold guess_datetime_format in H. cbn [find] in H.
    destruct (strptime fmt_iso s) eqn:E.
    + now apply parse_all_each.
    + inversion Hiso as [|x l Hs Hl]; subst.
      rewrite (iso_form_not_us s Hs) in H. discriminate.
Qed.

Lemma Sorted_parsed :
  forall col ts,
    Forall2 (fun s t => strptime fmt_iso s = Some t) col ts ->
    Sorted (fun a b => text_leb a b = true) col ->
    Sorted (fun a b => Timestamp_leb a b = true) ts.
Proof.
  intros col ts H. induction H as [|s t col ts Hst Hrest IH]; intros Hs.
  - constructor.
  - inversion Hs as [|x l Hs' Hhd]; subst. constructor; [auto|].
    destruct Hrest as [|s' t' col ts Hst' Hrest]; constructor.
    inversion Hhd; subst.
    now rewrite <- (strptime_iso_leb s s' t t' Hst Hst').
Qed.

Lemma join_where_dates :
  forall product market_filter ps ms prs r,
    In r (join_where product market_filter ps ms prs) ->
    exists pr, In pr prs /\ q_date r = pr_date pr.
Proof.
  unfold join_where. intros product market_filter ps ms prs r H.
  apply in_flat_map in H. destruct H as (pr & Hpr & H). exists pr. split; [assumption|].
  apply in_flat_map in H. destruct H as (p & _ & H).
  apply in_flat_map in H. destruct H as (m & _ & H).
  destruct (_ && _); [|contradiction].
  destruct H as [<- | []]. reflexivity.
Qed.

Lemma combine_dates :
  forall (df : list SqlRow) (ts : list Timestamp),
    List.length df = List.length ts ->
    map df_date
      (map (fun rt => mkRow (q_product (fst rt)) (q_market (fst rt))
                        (q_price (fst rt)) (snd rt))
         (combine df ts))
    = ts.
Proof.
  induction df as [|r df IH]; destruct ts as [|t ts]; cbn; intros H;
    try reflexivity; try discriminate.
  f_equal. apply IH. now injection H.
Qed.

(** The rows of the query come in ascending order of the stored date
    text, whatever the text is. *)
Lemma read_sql_query_sorted :
  forall db product market_filter df db',
    read_sql_query product market_filter db = (inr df, db') ->
    ascending (map q_date df).
Proof.
  intros [ps ms prs] product market_filter df db' H.
  unfold read_sql_query in H. revert H. run_monad.
  destruct prs as [prs|], ps as [ps|], ms as [ms|]; intros H; try discriminate.
  injection H as <- _. apply Sorted_map.
  apply (order_by_sorted (fun a b => text_leb (q_date a) (q_date b))).
  intros a b. apply text_leb_total.
Qed.

(** C2, as the code has it. When every stored date has the documented
    ISO form YYYY-MM-DD, the frame [fetch_timeseries] returns is
    non-decreasing by date: the date of a row is at most the date of the
    next row.  The engine orders the rows by the stored text, which agrees
    with the calendar for texts of this form. *)
Theorem fetch_sorted_by_date :
  forall db product market rows db',
    Forall (fun pr => iso_form (pr_date pr) = true) (rows_of (prices db)) ->
    fetch_timeseries product market db = (inr rows, db') ->
    Sorted (fun a b => Timestamp_leb (df_date a) (df_date b) = true) rows.
Proof.
  intros [ps ms prs] product market rows db' Hiso H.
  destruct prs as [prs|], ps as [ps|], ms as [ms|]; try discriminate H.
  rewrite fetch_timeseries_tables in H. cbn [rows_of prices] in Hiso.
  set (df := order_by _ _) in H.
  destruct (to_datetime (map q_date df)) as [e | ts] eqn:Et; [discriminate|].
  injection H as <- _.
  assert (Hcol : Forall (fun s => iso_form s = true) (map q_date df)).
  { apply Forall_forall. intros s Hs. apply in_map_iff in Hs.
    destruct Hs as (r & <- & Hr).
    apply (Permutation_in _ (Permutation_sym (order_by_perm _ _))) in Hr.
    apply join_where_dates in Hr. destruct Hr as (pr & Hpr & ->).
    revert pr Hpr. now apply Forall_forall. }
  pose proof (to_datetime_iso _ _ Hcol Et) as Hparsed.
  assert (Hsorted : ascending (map q_date df)).
  { apply Sorted_map.
    apply (order_by_sorted (fun a b => text_leb (q_date a) (q_date b))).
    intros a b. apply text_leb_total. }
  pose proof (Sorted_parsed _ _ Hparsed Hsorted) as Hts.
  apply Forall2_length in Hparsed. rewrite List.length_map in Hparsed.
  rewrite <- (combine_dates df ts Hparsed) in Hts.
  clear -Hts. induction (map _ (combine df ts)) as [|r rows IH]; [constructor|].
  cbn in Hts. inversion Hts as [|x l Hs Hhd]; subst. constructor; [auto|].
  destruct rows; constructor. now inversion Hhd.
Qed.

Lemma fetch_sorted_by_date_witness :
  Sorted (fun a b => Timestamp_leb (df_date a) (df_date b) = true)
    [mkRow "Maize" "Gulu" 1100 (mkTimestamp 2023 12 1);
     mkRow "Maize" "Kampala Central" 1200 (mkTimestamp 2024 1 15);
     mkRow "Maize" "Gulu" 1150 (mkTimestamp 2024 2 1)].
Proof.
  apply (fetch_sorted_by_date iso_store "Maize" None _ iso_store).
  - repeat constructor.
  - reflexivity.
Defined.

(** C2, as the specification words it, fails: the store takes any text as
    a date, and for two month-first dates the order of the texts is not
    the order of the dates.  2 January 2024 is returned before 1 December
    2023. *)
Lemma fetch_not_sorted_by_date :
  fetch_timeseries "Maize" None month_first_store
  = (inr [mkRow "Maize" "Gulu" 1100 (mkTimestamp 2024 1 2);
          mkRow "Maize" "Gulu" 1000 (mkTimestamp 2023 12 1)],
     month_first_store) /\
  ~ Sorted (fun a b => Timestamp_leb (df_date a) (df_date b) = true)
      [mkRow "Maize" "Gulu" 1100 (mkTimestamp 2024 1 2);
       mkRow "Maize" "Gulu" 1000 (mkTimestamp 2023 12 1)].
Proof.
  split; [reflexivity|].
  intros H. inversion H as [|x l _ Hhd]; subst.
  inversion Hhd as [|y l' Hle]; subst. discriminate Hle.
Qed.


(** * Further properties of the store *)

(** ** Lookups and registration *)

Lemma get_product_id_tables :
  forall ps ms prs name,
    get_product_id name (mkDatabase (Some ps) ms prs)
    = (inr (option_map p_id (find (fun r => String.eqb (p_name r) name) ps)),
       mkDatabase (Some ps) ms prs).
Proof. reflexivity. Qed.

Lemma get_market_id_tables :
  forall ps ms prs name,
    get_market_id name (mkDatabase ps (Some ms) prs)
    = (inr (option_map m_id (find (fun r => String.eqb (m_name r) name) ms)),
       mkDatabase ps (Some ms) prs).
Proof. reflexivity. Qed.

(** [get_product_id] and [get_market_id] return normally on a store with
    the schema and leave it as it is; the answer is [None] exactly for a
    name that is not registered, and otherwise the id of a stored row that
    carries the name. *)
Theorem lookup_finds_registered :
  forall db name,
    has_schema db ->
    (exists r,
        get_product_id name db = (inr r, db) /\
        (r = None <-> ~ In name (product_names db)) /\
        (forall i, r = Some i -> In (mkProductRow i name) (rows_of (products db)))) /\
    (exists r,
        get_market_id name db = (inr r, db) /\
        (r = None <-> ~ In name (market_names db)) /\
        (forall i, r = Some i ->
           exists location, In (mkMarketRow i name location) (rows_of (markets db)))).
Proof.
  intros db name Hs. destruct (has_schema_tables db Hs) as (ps & ms & prs & ->).
  unfold product_names, market_names. cbn [rows_of products markets]. split.
  - rewrite get_product_id_tables. eexists. split; [reflexivity|].
    destruct (in_dec string_dec name (map p_name ps)) as [Hin | Hnin].
    + destruct (find_product_some _ _ Hin) as (p & -> & Inp & Np). cbn [option_map].
      split; [split; [discriminate | contradiction]|].
      intros i [= <-]. destruct p as [pid pname]. cbn in *. now subst.
    + rewrite (find_product_none _ _ Hnin). cbn [option_map].
      split; [tauto | discriminate].
  - rewrite get_market_id_tables. eexists. split; [reflexivity|].
    destruct (in_dec string_dec name (map m_name ms)) as [Hin | Hnin].
    + destruct (find_market_some _ _ Hin) as (m & -> & Inm & Nm). cbn [option_map].
      split; [split; [discriminate | contradiction]|].
      intros i [= <-]. destruct m as [mid mname mloc]. cbn in *. subst. now exists mloc.
    + rewrite (find_market_none _ _ Hnin). cbn [option_map].
      split; [tauto | discriminate].
Qed.

Lemma lookup_finds_registered_witness :
  exists r,
    get_product_id "Maize" maize_store = (inr r, maize_store) /\
    (r = None <-> ~ In "Maize" (product_names maize_store)) /\
    (forall i, r = Some i ->
       In (mkProductRow i "Maize") (rows_of (products maize_store))).
Proof.
  apply (lookup_finds_registered maize_store "Maize").
  repeat split; discriminate.
Defined.

Lemma find_snoc :
  forall (A : Type) (f : A -> bool) (l : list A) (x : A),
    find f (l ++ [x])
    = match find f l with
      | Some y => Some y
      | None => if f x then Some x else None
      end.
Proof.
  intros A f l x. induction l as [|a l IH]; cbn; [reflexivity|].
  destruct (f a); [reflexivity | exact IH].
Qed.

(** After [add_product name] the name can be looked up.  A name that was
    registered before keeps the id it had, and the lookup of every other
    name answers as it did before the call. *)
Theorem add_product_then_lookup :
  forall db name,
    has_schema db ->
    exists db1 id,
      add_product name db = (inr tt, db1) /\
      get_product_id name db1 = (inr (Some id), db1) /\
      (forall i, get_product_id name db = (inr (Some i), db) -> id = i) /\
      (forall other,
          other <> name ->
          fst (get_product_id other db1) = fst (get_product_id other db)).
Proof.
  intros db name Hs. destruct (has_schema_tables db Hs) as (ps & ms & prs & ->).
  destruct (in_dec string_dec name (map p_name ps)) as [Hin | Hnin].
  - destruct (find_product_some _ _ Hin) as (p & Fp & _ & _).
    exists (mkDatabase (Some ps) (Some ms) (Some prs)), (p_id p).
    rewrite add_product_known by assumption. rewrite !get_product_id_tables, Fp.
    repeat split. intros i [= <-]. reflexivity.
  - eexists. exists (next_id (map p_id ps)).
    rewrite add_product_new by assumption. split; [reflexivity|].
    rewrite !get_product_id_tables, find_snoc, (find_product_none _ _ Hnin).
    cbn [p_name]. rewrite String.eqb_refl. split; [reflexivity|]. split.
    + intros i [=].
    + intros other Hne. rewrite !get_product_id_tables, find_snoc. cbn [fst p_name].
      destruct (find _ ps); [reflexivity|].
      destruct (String.eqb_spec name other); [congruence | reflexivity].
Qed.

Lemma add_product_then_lookup_witness :
  exists db1 id,
    add_product "Rice" maize_store = (inr tt, db1) /\
    get_product_id "Rice" db1 = (inr (Some id), db1).
Proof.
  destruct (add_product_then_lookup maize_store "Rice") as (db1 & id & H1 & H2 & _).
  - repeat split; discriminate.
  - exists db1, id. split; assumption.
Defined.

(** The same for [add_market]: the name can be looked up afterwards, an
    id handed out earlier stays, and other names are not affected. *)
Theorem add_market_then_lookup :
  forall db name location,
    has_schema db ->
    exists db1 id,
      add_market name location db = (inr tt, db1) /\
      get_market_id name db1 = (inr (Some id), db1) /\
      (forall i, get_market_id name db = (inr (Some i), db) -> id = i) /\
      (forall other,
          other <> name ->
          fst (get_market_id other db1) = fst (get_market_id other db)).
Proof.
  intros db name location Hs.
  destruct (has_schema_tables db Hs) as (ps & ms & prs & ->).
  destruct (in_dec string_dec name (map m_name ms)) as [Hin | Hnin].
  - destruct (find_market_some _ _ Hin) as (m & Fm & _ & _).
    exists (mkDatabase (Some ps) (Some ms) (Some prs)), (m_id m).
    rewrite add_market_known by assumption. rewrite !get_market_id_tables, Fm.
    repeat split. intros i [= <-]. reflexivity.
  - eexists. exists (next_id (map m_id ms)).
    rewrite add_market_new by assumption. split; [reflexivity|].
    rewrite !get_market_id_tables, find_snoc, (find_market_none _ _ Hnin).
    cbn [m_name]. rewrite String.eqb_refl. split; [reflexivity|]. split.
    + intros i [=].
    + intros other Hne. rewrite !get_market_id_tables, find_snoc. cbn [fst m_name].
      destruct (find _ ms); [reflexivity|].
      destruct (String.eqb_spec name other); [congruence | reflexivity].
Qed.

Lemma add_market_then_lookup_witness :
  exists db1 id,
    add_market "Lira" "North" maize_store = (inr tt, db1) /\
    get_market_id "Lira" db1 = (inr (Some id), db1).
Proof.
  destruct (add_market_then_lookup maize_store "Lira" "North") as (db1 & id & H1 & H2 & _).
  - repeat split; discriminate.
  - exists db1, id. split; assumption.
Defined.

(** ** What a call does to the tables *)

Lemma run_prices :
  forall c db,
    rows_of (prices (run c db)) = rows_of (prices db) \/
    exists product market price date_iso pid mid,
      c = call_record_price product market price date_iso /\
      In pid (map p_id (rows_of (products db))) /\
      In mid (map m_id (rows_of (markets db))) /\
      rows_of (prices (run c db))
      = rows_of (prices db)
          ++ [mkPriceRow (next_id (map pr_id (rows_of (prices db)))) pid mid
                (sqlite_real price) date_iso].
Proof.
  intros c [ps ms prs]. destruct c; cbn [run].
  - left. apply (init_db_keeps_rows (mkDatabase ps ms prs)).
  - left. destruct ps as [ps|]; [|reflexivity].
    destruct (in_dec string_dec name (map p_name ps)).
    + now rewrite add_product_known.
    + now rewrite add_product_new.
  - left. destruct ms as [ms|]; [|destruct ps; reflexivity].
    destruct (in_dec string_dec name (map m_name ms)).
    + now rewrite add_market_known.
    + now rewrite add_market_new.
  - left. destruct ps; reflexivity.
  - left. destruct ms; reflexivity.
  - unfold record_price, get_product_id, get_market_id, insert_price. run_monad.
    destruct ps as [ps|]; [|left; reflexivity].
    destruct ms as [ms|]; [|left; reflexivity].
    destruct (find _ ps) as [p|] eqn:Fp; cbn [option_map]; [|left; reflexivity].
    destruct (find _ ms) as [m|] eqn:Fm; cbn [option_map]; [|left; reflexivity].
    destruct prs as [prs|]; [|left; reflexivity].
    destruct (is_nan price); [left; reflexivity|].
    right. exists product, market, price, date_iso, (p_id p), (m_id m).
    apply find_some in Fp, Fm. cbn [rows_of products markets prices snd].
    repeat split; apply in_map; tauto.
  - left. now rewrite fetch_timeseries_keeps_db.
  - left. destruct ps; reflexivity.
  - left. destruct ms; reflexivity.
Qed.

(** The store is append-only: a call adds at most one row, at the end of
    one table, and never changes or removes a row that is stored. *)
Theorem store_is_append_only :
  forall c db,
    exists new_products new_markets new_prices,
      rows_of (products (run c db)) = rows_of (products db) ++ new_products /\
      rows_of (markets (run c db)) = rows_of (markets db) ++ new_markets /\
      rows_of (prices (run c db)) = rows_of (prices db) ++ new_prices /\
      (List.length new_products + List.length new_markets
       + List.length new_prices <= 1)%nat.
Proof.
  intros c db.
  destruct (run_tables c db) as [Hp Hm]. pose proof (run_prices c db) as Hpr.
  destruct Hp as [Hp | (name & Ec & _ & Hp)].
  - destruct Hm as [Hm | (name & location & Ec & _ & Hm)].
    + destruct Hpr as [Hpr | (pn & mn & pv & dt & pid & mid & Ec & _ & _ & Hpr)].
      * exists [], [], []. rewrite !app_nil_r.
        repeat split; try assumption. cbn. lia.
      * eexists [], [], [_]. rewrite !app_nil_r.
        repeat split; try eassumption. cbn. lia.
    + destruct Hpr as [Hpr | (pn & mn & pv & dt & pid & mid & Ec' & _)];
        [|congruence].
      eexists [], [_], []. rewrite !app_nil_r.
      repeat split; try eassumption. cbn. lia.
  - destruct Hm as [Hm | (n & location & Ec' & _)]; [|congruence].
    destruct Hpr as [Hpr | (pn & mn & pv & dt & pid & mid & Ec' & _)];
      [|congruence].
    eexists [_], [], []. rewrite !app_nil_r.
    repeat split; try eassumption. cbn. lia.
Qed.

Lemma store_tables_grow :
  forall c db,
    (forall i, In i (map p_id (rows_of (products db))) ->
               In i (map p_id (rows_of (products (run c db))))) /\
    (forall i, In i (map m_id (rows_of (markets db))) ->
               In i (map m_id (rows_of (markets (run c db))))).
Proof.
  intros c db. destruct (run_tables c db) as [Hp Hm]. split; intros i Hi.
  - destruct Hp as [-> | (name & _ & _ & ->)]; [assumption|].
    rewrite map_app, in_app_iff. now left.
  - destruct Hm as [-> | (name & location & _ & _ & ->)]; [assumption|].
    rewrite map_app, in_app_iff. now left.
Qed.

Lemma run_referential_integrity :
  forall c db, referential_integrity db -> referential_integrity (run c db).
Proof.
  intros c db Hri pr Hin.
  destruct (store_tables_grow c db) as (Gp & Gm).
  destruct (run_prices c db) as [E | (pn & mn & pv & dt & pid & mid & _ & Ip & Im & E)];
    rewrite E in Hin.
  - destruct (Hri pr Hin). split; [apply Gp | apply Gm]; assumption.
  - apply in_app_iff in Hin. destruct Hin as [Hin | [<- | []]].
    + destruct (Hri pr Hin). split; [apply Gp | apply Gm]; assumption.
    + cbn [pr_product_id pr_market_id]. split; [apply Gp | apply Gm]; assumption.
Qed.

Lemma run_all_referential_integrity :
  forall cs db, referential_integrity db -> referential_integrity (run_all cs db).
Proof.
  unfold run_all. induction cs as [|c cs IH]; cbn; intros db H; [assumption|].
  apply IH. now apply run_referential_integrity.
Qed.

(** In every state a program reaches from a new file, each price row
    points at a stored product and at a stored market: [record_price] only
    writes ids it has just looked up, and nothing is ever deleted. *)
Theorem prices_reference_stored_rows :
  forall cs : list Call, referential_integrity (run_all cs fresh).
Proof.
  intros cs. apply run_all_referential_integrity. intros pr [].
Qed.

Lemma NoDup_map_inj :
  forall (A B : Type) (f : A -> B) (l : list A) (x y : A),
    NoDup (map f l) -> In x l -> In y l -> f x = f y -> x = y.
Proof.
  intros A B f l x y. induction l as [|a l IH]; cbn; intros Hnd Hx Hy E;
    [contradiction|].
  inversion Hnd as [|k ks Hk Hnd']; subst.
  destruct Hx as [-> | Hx], Hy as [-> | Hy]; auto.
  - exfalso. apply Hk. rewrite E. now apply in_map.
  - exfalso. apply Hk. rewrite <- E. now apply in_map.
Qed.

(** In every reachable state an id stands for one name: two lookups that
    answer with the same id were asked for the same name.  This holds for
    products and for markets. *)
Theorem ids_identify_names :
  forall (cs : list Call) (a b : string) (i : Z),
    let db := run_all cs fresh in
    (get_product_id a db = (inr (Some i), db) ->
     get_product_id b db = (inr (Some i), db) -> a = b) /\
    (get_market_id a db = (inr (Some i), db) ->
     get_market_id b db = (inr (Some i), db) -> a = b).
Proof.
  intros cs a b i db.
  destruct (reachable_invariants cs) as [Hs (_ & Hpk & Hmk)]. fold db in Hs, Hpk, Hmk.
  destruct (has_schema_tables db Hs) as (ps & ms & prs & E). rewrite E in *.
  cbn [rows_of products markets] in *. split.
  - rewrite !get_product_id_tables. intros Ha Hb.
    destruct (find _ ps) as [p|] eqn:Fa in Ha; [|discriminate].
    destruct (find _ ps) as [p'|] eqn:Fb in Hb; [|discriminate].
    cbn in Ha, Hb. apply find_some in Fa, Fb.
    destruct Fa as [Ia Na], Fb as [Ib Nb]. apply String.eqb_eq in Na, Nb.
    assert (p = p') by (apply (NoDup_map_inj _ _ p_id ps); congruence).
    congruence.
  - rewrite !get_market_id_tables. intros Ha Hb.
    destruct (find _ ms) as [m|] eqn:Fa in Ha; [|discriminate].
    destruct (find _ ms) as [m'|] eqn:Fb in Hb; [|discriminate].
    cbn in Ha, Hb. apply find_some in Fa, Fb.
    destruct Fa as [Ia Na], Fb as [Ib Nb]. apply String.eqb_eq in Na, Nb.
    assert (m = m') by (apply (NoDup_map_inj _ _ m_id ms); congruence).
    congruence.
Qed.

Lemma ids_identify_names_witness :
  get_product_id "Maize" maize_store = (inr (Some 2), maize_store) /\
  "Maize" = "Maize".
Proof.
  split; [reflexivity|].
  apply (proj1 (ids_identify_names
                  [call_add_product "Beans"; call_add_market "Gulu" "North";
                   call_add_product "Maize"; call_add_market "Kampala Central" "";
                   call_record_price "Beans" "Kampala Central" 3000 "2024-01-10";
                   call_record_price "Maize" "Gulu" 1100 "2024-01-12"]
                  "Maize" "Maize" 2)); reflexivity.
Defined.

(** A call that raises leaves the file exactly as it was, whatever the
    call and whatever the state of the file. *)
Theorem failed_call_changes_nothing :
  forall c db e, raised c db = Some e -> run c db = db.
Proof.
  intros c [ps ms prs] e H. destruct c; cbn [run raised] in *.
  - discriminate H.
  - destruct ps as [ps|]; [|reflexivity].
    destruct (in_dec string_dec name (map p_name ps)).
    + now rewrite add_product_known.
    + rewrite add_product_new in H by assumption. discriminate H.
  - destruct ms as [ms|]; [|destruct ps; reflexivity].
    destruct (in_dec string_dec name (map m_name ms)).
    + now rewrite add_market_known.
    + rewrite add_market_new in H by assumption. discriminate H.
  - destruct ps; reflexivity.
  - destruct ms; reflexivity.
  - revert H. unfold record_price, get_product_id, get_market_id, insert_price.
    run_monad.
    destruct ps as [ps|]; [|reflexivity].
    destruct ms as [ms|]; [|reflexivity].
    destruct (find _ ps); cbn [option_map]; [|reflexivity].
    destruct (find _ ms); cbn [option_map]; [|reflexivity].
    destruct prs as [prs|]; [|reflexivity].
    destruct (is_nan price); [reflexivity|]. discriminate.
  - apply fetch_timeseries_keeps_db.
  - destruct ps; reflexivity.
  - destruct ms; reflexivity.
Qed.

Lemma failed_call_changes_nothing_witness :
  run (call_record_price "Maize" "Lira" 1200 "2024-01-15") maize_store = maize_store.
Proof.
  apply (failed_call_changes_nothing
           (call_record_price "Maize" "Lira" 1200 "2024-01-15") maize_store
           (ValueError "Unknown product or market. Ensure they are added first.")).
  reflexivity.
Defined.

(** The two lookups, [fetch_timeseries] and the two listings never write:
    the file is the same after the call, whether it returned or raised and
    whether or not the file has the schema. *)
Theorem queries_read_only :
  forall c db, is_query c = true -> run c db = db.
Proof.
  intros c [ps ms prs] H. destruct c; try discriminate H; cbn [run].
  - destruct ps; reflexivity.
  - destruct ms; reflexivity.
  - apply fetch_timeseries_keeps_db.
  - destruct ps; reflexivity.
  - destruct ms; reflexivity.
Qed.

Lemma queries_read_only_witness :
  run (call_fetch_timeseries "Maize" None) month_first_store = month_first_store.
Proof.
  apply (queries_read_only (call_fetch_timeseries "Maize" None) month_first_store).
  reflexivity.
Defined.

Lemma add_product_no_table :
  forall ms prs name,
    add_product name (mkDatabase None ms prs)
    = (inl (OperationalError "no such table: products"), mkDatabase None ms prs).
Proof. reflexivity. Qed.

Lemma add_market_no_table :
  forall ps prs name location,
    add_market name location (mkDatabase ps None prs)
    = (inl (OperationalError "no such table: markets"), mkDatabase ps None prs).
Proof. reflexivity. Qed.

(** Registering a product and registering a market do not interfere: the
    two calls leave the same file in either order. *)
Theorem registrations_commute :
  forall db product market location,
    run (call_add_market market location) (run (call_add_product product) db)
    = run (call_add_product product) (run (call_add_market market location) db).
Proof.
  intros [ps ms prs] product market location. cbn [run].
  destruct ps as [ps|], ms as [ms|];
    [ destruct (in_dec string_dec product (map p_name ps)),
               (in_dec string_dec market (map m_name ms))
    | destruct (in_dec string_dec product (map p_name ps))
    | destruct (in_dec string_dec market (map m_name ms))
    | ];
    repeat (first [ rewrite add_product_known by assumption
                  | rewrite add_product_new by assumption
                  | rewrite add_market_known by assumption
                  | rewrite add_market_new by assumption
                  | rewrite add_product_no_table
                  | rewrite add_market_no_table ];
            cbn [snd]);
    reflexivity.
Qed.

(** ** record_price on registered names *)

(** With both names registered and a price that is a number,
    [record_price] returns normally and appends exactly one price row,
    under an id no stored price row has: it carries the two ids the lookups
    give, the price as a REAL column holds it (the negative zero as zero,
    any other number unchanged) and the date text as passed.  The date is
    not checked, and neither is whether the same observation is already
    stored. *)
Theorem record_price_registered :
  forall db product market price date_iso,
    has_schema db ->
    In product (product_names db) ->
    In market (market_names db) ->
    is_nan price = false ->
    exists pid mid id,
      get_product_id product db = (inr (Some pid), db) /\
      get_market_id market db = (inr (Some mid), db) /\
      ~ In id (map pr_id (rows_of (prices db))) /\
      record_price product market price date_iso db
      = (inr tt,
         mkDatabase (products db) (markets db)
           (Some (rows_of (prices db)
                  ++ [mkPriceRow id pid mid (sqlite_real price) date_iso]))).
Proof.
  intros db product market price date_iso Hs Hp Hm Hnan.
  destruct (has_schema_tables db Hs) as (ps & ms & prs & ->).
  unfold product_names, market_names in *. cbn [rows_of products markets prices] in *.
  destruct (find_product_some _ _ Hp) as (p & Fp & _ & _).
  destruct (find_market_some _ _ Hm) as (m & Fm & _ & _).
  exists (p_id p), (m_id m), (next_id (map pr_id prs)).
  rewrite get_product_id_tables, get_market_id_tables, Fp, Fm.
  split; [reflexivity|]. split; [reflexivity|]. split; [apply next_id_fresh|].
  unfold record_price, get_product_id, get_market_id, insert_price. run_monad.
  rewrite Fp, Fm. cbn [option_map]. now rewrite Hnan.
Qed.

Lemma record_price_registered_witness :
  exists pid mid id,
    get_product_id "Maize" maize_store = (inr (Some pid), maize_store) /\
    get_market_id "Gulu" maize_store = (inr (Some mid), maize_store) /\
    ~ In id (map pr_id (rows_of (prices maize_store))) /\
    record_price "Maize" "Gulu" (-0) "2024-01-12" maize_store
    = (inr tt,
       mkDatabase (products maize_store) (markets maize_store)
         (Some (rows_of (prices maize_store)
                ++ [mkPriceRow id pid mid 0 "2024-01-12"]))).
Proof.
  apply (record_price_registered maize_store "Maize" "Gulu" (-0) "2024-01-12").
  - repeat split; discriminate.
  - cbn. tauto.
  - cbn. tauto.
  - reflexivity.
Defined.

(** ** What fetch_timeseries returns *)

Lemma join_where_rows :
  forall product market_filter ps ms prs r,
    In r (join_where product market_filter ps ms prs) ->
    exists pr p m,
      In pr prs /\ In p ps /\ In m ms /\
      pr_product_id pr = p_id p /\ pr_market_id pr = m_id m /\
      p_name p = product /\
      (forall mk, market_filter = Some mk -> m_name m = mk) /\
      r = mkSqlRow product (m_name m) (pr_price pr) (pr_date pr).
Proof.
  unfold join_where. intros product market_filter ps ms prs r H.
  apply in_flat_map in H. destruct H as (pr & Hpr & H).
  apply in_flat_map in H. destruct H as (p & Hp & H).
  apply in_flat_map in H. destruct H as (m & Hm & H).
  apply filter_In in Hp, Hm. destruct Hp as [Hp Ep], Hm as [Hm Em].
  apply Z.eqb_eq in Ep, Em.
  destruct (String.eqb_spec (p_name p) product) as [Hn | Hn]; [|contradiction].
  cbn [andb] in H. exists pr, p, m. destruct market_filter as [mk|].
  - destruct (String.eqb_spec (m_name m) mk) as [Hmk | Hmk]; [|contradiction].
    destruct H as [<- | []]. rewrite Hn. repeat split; try assumption.
    intros mk' [= <-]. assumption.
  - destruct H as [<- | []]. rewrite Hn. repeat split; try assumption.
    discriminate.
Qed.

Lemma to_datetime_each :
  forall col ts,
    to_datetime col = inr ts ->
    exists fmt, Forall2 (fun s t => strptime fmt s = Some t) col ts.
Proof.
  intros col ts H. destruct col as [|s col]; unfold to_datetime in H.
  - injection H as <-. exists fmt_iso. constructor.
  - destruct (guess_datetime_format s) as [fmt|]; [|discriminate].
    exists fmt. now apply parse_all_each.
Qed.

Lemma combine_each :
  forall (A B C : Type) (f : A -> C) (P : C -> B -> Prop) (l : list A) (ts : list B),
    Forall2 P (map f l) ts ->
    forall a t, In (a, t) (combine l ts) -> P (f a) t.
Proof.
  intros A B C f P. induction l as [|x l IH]; intros ts H a t Hin; [contradiction|].
  inversion H as [|c b cs bs Hc Hrest]; subst. cbn in Hin.
  destruct Hin as [[= <- <-] | Hin]; [assumption | eauto].
Qed.

(** On a store whose dates have the ISO form, every row
    [fetch_timeseries] returns is a stored observation of what was asked
    for.  There is a stored price row whose product id is the id of a
    stored product with the requested name and whose market id is the id of
    a stored market; the row carries that product name, the name of that
    market (the requested one when a market was given), the price of the
    price row, and the date its text stands for. *)
Theorem fetched_rows_are_observations :
  forall db product market rows db',
    Forall (fun pr => iso_form (pr_date pr) = true) (rows_of (prices db)) ->
    fetch_timeseries product market db = (inr rows, db') ->
    Forall (fun r =>
              exists pr p m,
                In pr (rows_of (prices db)) /\
                In p (rows_of (products db)) /\
                In m (rows_of (markets db)) /\
                pr_product_id pr = p_id p /\
                pr_market_id pr = m_id m /\
                p_name p = product /\
                (forall mk, given market = Some mk -> m_name m = mk) /\
                df_product r = product /\
                df_market r = m_name m /\
                df_price r = pr_price pr /\
                strptime fmt_iso (pr_date pr) = Some (df_date r))
           rows.
Proof.
  intros [ps ms prs] product market rows db' Hiso H.
  destruct prs as [prs|], ps as [ps|], ms as [ms|]; try discriminate H.
  rewrite fetch_timeseries_tables in H. cbn [rows_of prices products markets] in *.
  set (df := order_by _ _) in H.
  destruct (to_datetime (map q_date df)) as [e | ts] eqn:Et; [discriminate|].
  injection H as <- _.
  assert (Hcol : Forall (fun s => iso_form s = true) (map q_date df)).
  { apply Forall_forall. intros s Hs. apply in_map_iff in Hs.
    destruct Hs as (r & <- & Hr).
    apply (Permutation_in _ (Permutation_sym (order_by_perm _ _))) in Hr.
    apply join_where_dates in Hr. destruct Hr as (pr & Hpr & ->).
    revert pr Hpr. now apply Forall_forall. }
  pose proof (to_datetime_iso _ _ Hcol Et) as Hfmt.
  apply Forall_forall. intros r Hr. apply in_map_iff in Hr.
  destruct Hr as ([q t] & <- & Hqt). cbn [fst snd df_product df_market df_price df_date].
  pose proof (combine_each _ _ _ q_date _ df ts Hfmt q t Hqt) as Hdate.
  apply in_combine_l in Hqt.
  apply (Permutation_in _ (Permutation_sym (order_by_perm _ _))) in Hqt.
  apply join_where_rows in Hqt.
  destruct Hqt as (pr & p & m & Hpr & Hp & Hm & Epid & Emid & Hname & Hmk & ->).
  cbn [q_date q_product q_market q_price] in *.
  exists pr, p, m. repeat split; assumption.
Qed.

Lemma fetched_rows_are_observations_witness :
  Forall (fun r =>
            exists pr p m,
              In pr (rows_of (prices iso_store)) /\
              In p (rows_of (products iso_store)) /\
              In m (rows_of (markets iso_store)) /\
              pr_product_id pr = p_id p /\
              pr_market_id pr = m_id m /\
              p_name p = "Maize" /\
              (forall mk, given (Some "Gulu") = Some mk -> m_name m = mk) /\
              df_product r = "Maize" /\
              df_market r = m_name m /\
              df_price r = pr_price pr /\
              strptime fmt_iso (pr_date pr) = Some (df_date r))
         [mkRow "Maize" "Gulu" 1100 (mkTimestamp 2023 12 1);
          mkRow "Maize" "Gulu" 1150 (mkTimestamp 2024 2 1)].
Proof.
  apply (fetched_rows_are_observations iso_store "Maize" (Some "Gulu") _ iso_store).
  - repeat constructor.
  - reflexivity.
Defined.

Lemma to_datetime_length :
  forall col ts, to_datetime col = inr ts -> List.length ts = List.length col.
Proof.
  intros col ts H. destruct (to_datetime_each _ _ H) as (fmt & F).
  symmetry. exact (Forall2_length F).
Qed.

Lemma join_where_count :
  forall product ps ms prs p,
    NoDup (map p_name ps) -> NoDup (map p_id ps) -> NoDup (map m_id ms) ->
    (forall pr, In pr prs ->
       In (pr_product_id pr) (map p_id ps) /\ In (pr_market_id pr) (map m_id ms)) ->
    In p ps -> p_name p = product ->
    List.length (join_where product None ps ms prs)
    = List.length (filter (fun pr => Z.eqb (pr_product_id pr) (p_id p)) prs).
Proof.
  intros product ps ms prs p Hun Hpk Hmk Hri Hp Hname. unfold join_where.
  induction prs as [|pr prs IH]; [reflexivity|].
  cbn [flat_map filter]. rewrite List.length_app, IH
    by (intros pr' H'; apply Hri; now right).
  destruct (Hri pr (or_introl eq_refl)) as [Ip Im].
  apply in_map_iff in Ip. destruct Ip as (p' & Ep & Ip).
  apply in_map_iff in Im. destruct Im as (m' & Em & Im).
  rewrite <- Ep, <- Em.
  rewrite (filter_key _ p_id ps p' Hpk Ip), (filter_key _ m_id ms m' Hmk Im).
  cbn [flat_map app]. rewrite !app_nil_r, andb_true_r.
  destruct (Z.eqb_spec (p_id p') (p_id p)) as [E | E].
  - assert (p' = p) by (apply (NoDup_map_inj _ _ p_id ps); assumption). subst p'.
    rewrite Hname, String.eqb_refl. reflexivity.
  - destruct (String.eqb_spec (p_name p') product) as [En | En]; [|reflexivity].
    exfalso. apply E. f_equal.
    apply (NoDup_map_inj _ _ p_name ps); congruence.
Qed.

(** In every reachable state [fetch_timeseries] without a market loses no
    observation: when it returns, it returns as many rows as there are
    price rows that carry the id of the product. *)
Theorem fetch_returns_every_observation :
  forall (cs : list Call) product pid rows db',
    let db := run_all cs fresh in
    get_product_id product db = (inr (Some pid), db) ->
    fetch_timeseries product None db = (inr rows, db') ->
    List.length rows
    = List.length (filter (fun pr => Z.eqb (pr_product_id pr) pid)
                     (rows_of (prices db))).
Proof.
  intros cs product pid rows db' db Hid H.
  destruct (reachable_invariants cs) as [Hs ((Hun & _) & Hpk & Hmk)].
  assert (Hri : referential_integrity (run_all cs fresh))
    by (apply run_all_referential_integrity; intros pr []).
  fold db in Hs, Hun, Hpk, Hmk, Hri. unfold product_names in Hun.
  destruct (has_schema_tables db Hs) as (ps & ms & prs & E). rewrite E in *.
  cbn [rows_of products markets prices] in *.
  rewrite get_product_id_tables in Hid.
  destruct (find _ ps) as [p|] eqn:Fp; [|discriminate]. injection Hid as <-.
  apply find_some in Fp. destruct Fp as [Ip Np]. apply String.eqb_eq in Np.
  rewrite fetch_timeseries_tables in H.
  change (given None) with (@None string) in H.
  set (df := order_by _ _) in H.
  destruct (to_datetime (map q_date df)) as [e | ts] eqn:Et; [discriminate|].
  injection H as <- _.
  apply to_datetime_length in Et. rewrite List.length_map in Et.
  rewrite List.length_map, List.length_combine, Et, Nat.min_id.
  unfold df.
  rewrite <- (Permutation_length (order_by_perm _ _)).
  now apply join_where_count.
Qed.

Lemma fetch_returns_every_observation_witness :
  List.length
    [mkRow "Maize" "Gulu" 1100 (mkTimestamp 2023 12 1);
     mkRow "Maize" "Kampala Central" 1200 (mkTimestamp 2024 1 15);
     mkRow "Maize" "Gulu" 1150 (mkTimestamp 2024 2 1)]
  = List.length (filter (fun pr => Z.eqb (pr_product_id pr) 1)
                   (rows_of (prices iso_store))).
Proof.
  apply (fetch_returns_every_observation
           [call_add_product "Maize"; call_add_market "Kampala Central" "";
            call_add_market "Gulu" "North";
            call_record_price "Maize" "Kampala Central" 1200 "2024-01-15";
            call_record_price "Maize" "Gulu" 1100 "2023-12-01";
            call_record_price "Maize" "Gulu" 1150 "2024-02-01"]
           "Maize" 1 _ iso_store); reflexivity.
Defined.

(** ** Listings and lookups agree *)

(** In every reachable state the listings name exactly what the lookups
    find, each name once: a name is in the result of [list_products] if
    and only if [get_product_id] answers with an id for it, and likewise
    for [list_markets] and [get_market_id]. *)
Theorem listings_agree_with_lookups :
  forall (cs : list Call) (name : string),
    let db := run_all cs fresh in
    exists names pairs,
      list_products db = (inr names, db) /\
      NoDup names /\
      (In name names <-> exists i, get_product_id name db = (inr (Some i), db)) /\
      list_markets db = (inr pairs, db) /\
      NoDup (map fst pairs) /\
      (In name (map fst pairs) <->
       exists i, get_market_id name db = (inr (Some i), db)).
Proof.
  intros cs name db.
  destruct (reachable_invariants cs) as [Hs ((Hup & Hum) & _)].
  fold db in Hs, Hup, Hum. unfold product_names, market_names in *.
  destruct (has_schema_tables db Hs) as (ps & ms & prs & E). rewrite E in *.
  cbn [rows_of products markets] in *.
  eexists. eexists. split; [reflexivity|].
  pose proof (order_by_perm text_leb (map p_name ps)) as Pp.
  pose proof (order_by_perm (fun a b => text_leb (m_name a) (m_name b)) ms) as Pm.
  assert (Pm' : Permutation (map m_name ms)
                  (map fst (map (fun r => (m_name r, m_location r))
                              (order_by (fun a b => text_leb (m_name a) (m_name b)) ms)))).
  { rewrite map_map. cbn [fst]. now apply Permutation_map. }
  split; [exact (Permutation_NoDup Pp Hup)|]. split.
  - rewrite get_product_id_tables. split.
    + intros Hin. apply (Permutation_in _ (Permutation_sym Pp)) in Hin.
      destruct (find_product_some _ _ Hin) as (p & -> & _). now exists (p_id p).
    + intros (i & Hi). apply (Permutation_in _ Pp).
      destruct (in_dec string_dec name (map p_name ps)) as [Hin | Hnin]; [assumption|].
      rewrite (find_product_none _ _ Hnin) in Hi. discriminate.
  - split; [reflexivity|]. split; [exact (Permutation_NoDup Pm' Hum)|].
    rewrite get_market_id_tables. split.
    + intros Hin. apply (Permutation_in _ (Permutation_sym Pm')) in Hin.
      destruct (find_market_some _ _ Hin) as (m & -> & _). now exists (m_id m).
    + intros (i & Hi). apply (Permutation_in _ Pm').
      destruct (in_dec string_dec name (map m_name ms)) as [Hin | Hnin]; [assumption|].
      rewrite (find_market_none _ _ Hnin) in Hi. discriminate.
Qed.

(** ** Schema initialisation on any file *)

(** Whatever tables the file has, [_init_db] returns normally, leaves the
    file with all three tables, keeps every stored row, creates the missing
    tables empty, and a second run changes nothing. *)
Theorem init_db_completes_schema :
  forall db,
    exists db',
      _init_db db = (inr tt, db') /\
      has_schema db' /\
      rows_of (products db') = rows_of (products db) /\
      rows_of (markets db') = rows_of (markets db) /\
      rows_of (prices db') = rows_of (prices db) /\
      _init_db db' = (inr tt, db').
Proof.
  intros db. exists (snd (_init_db db)).
  destruct (init_db_keeps_rows db) as (H1 & H2 & H3).
  split; [now rewrite init_db_result|].
  split; [apply init_db_has_schema|].
  split; [exact H1|]. split; [exact H2|]. split; [exact H3|].
  apply init_db_twice.
Qed.

(** ** plot_product_trend with data *)

Lemma child_label_named :
  forall n label, label <> "" -> child_label n label = label.
Proof. intros n [|c label] H; [contradiction | reflexivity]. Qed.

Lemma for_each_plot :
  forall (gs : list (string * list Row)) db fig figs files shown env,
    for_each gs
      (fun g => plt_plot (map df_date (snd g)) (map df_price (snd g)) "o" (fst g))
      (mkWorld db (fig :: figs) files shown env)
    = (inr tt,
       mkWorld db
         (mkFigure (fig_figsize fig) (group_lines (fig_lines fig) gs)
            (fig_title fig) (fig_xlabel fig) (fig_ylabel fig) (fig_grid fig)
            (fig_legend fig) (fig_tight fig) :: figs)
         files shown env).
Proof.
  induction gs as [|g gs IH]; intros db fig figs files shown env.
  - cbn. now destruct fig.
  - cbn [for_each group_lines]. unfold bind at 1. unfold plt_plot at 1.
    unfold on_current. cbn [w_figures w_db w_files w_shown w_savefig].
    rewrite IH. reflexivity.
Qed.


(** What [plot_product_trend] does once the frame has rows: it draws the
    chart and hands it to [savefig] or to [show]. *)
Lemma plot_with_data :
  forall w product market out_path rows,
    fetch_timeseries product market (w_db w) = (inr rows, w_db w) ->
    rows <> [] ->
    plot_product_trend product market out_path w
    = match given out_path with
      | Some path =>
          match w_savefig w path with
          | inr file =>
              (inr tt,
               mkWorld (w_db w) (w_figures w)
                 (w_files w ++ [(file, (trend_figure product market rows, 150))])
                 (w_shown w) (w_savefig w))
          | inl e =>
              (inl e,
               mkWorld (w_db w) (trend_figure product market rows :: w_figures w)
                 (w_files w) (w_shown w) (w_savefig w))
          end
      | None =>
          (inr tt,
           mkWorld (w_db w) [] (w_files w)
             (w_shown w ++ rev (trend_figure product market rows :: w_figures w))
             (w_savefig w))
      end.
Proof.
  intros [db figs files shown env] product market out_path rows H Hne.
  cbn [w_db w_figures w_files w_shown w_savefig] in *.
  unfold plot_product_trend. unfold bind at 1. unfold lift_db. cbn [w_db].
  rewrite H. cbn [w_figures w_files w_shown w_savefig].
  destruct rows as [|r rows]; [contradiction|]. cbn [empty].
  unfold trend_figure, trend_lines.
  unfold bind at 1. unfold plt_figure. cbn [w_db w_figures w_files w_shown w_savefig].
  unfold bind at 1.
  destruct (given market) as [mk|].
  - unfold plt_plot at 1. unfold on_current at 1.
    cbn [w_db w_figures w_files w_shown w_savefig].
    rewrite child_label_named by (destruct product; discriminate).
    destruct (given out_path) as [path|]; [|reflexivity].
    cbv beta iota zeta
      delta [bind plt_title plt_xlabel plt_ylabel plt_grid plt_legend
             plt_tight_layout plt_savefig plt_close on_current
             w_db w_figures w_files w_shown w_savefig hd tl
             fig_figsize fig_lines fig_title fig_xlabel fig_ylabel fig_grid
             fig_legend fig_tight].
    destruct (env path); reflexivity.
  - rewrite for_each_plot.
    destruct (given out_path) as [path|]; [|reflexivity].
    cbv beta iota zeta
      delta [bind plt_title plt_xlabel plt_ylabel plt_grid plt_legend
             plt_tight_layout plt_savefig plt_close on_current
             w_db w_figures w_files w_shown w_savefig hd tl
             fig_figsize fig_lines fig_title fig_xlabel fig_ylabel fig_grid
             fig_legend fig_tight].
    destruct (env path); reflexivity.
Qed.

(** With data and a non-empty [out_path], [plot_product_trend] draws one
    chart and hands it to [savefig] at 150 dpi.  When [savefig] writes, the
    call returns normally with exactly that one file written, the figure
    closed again, nothing shown and the store untouched.  When [savefig]
    raises (a format that is not supported, a place that cannot be
    written), the call raises the same exception, no file is written and
    the figure stays open, since [plt.close] is not reached.  The chart is
    titled "Price Trend: " and the product (with the market in brackets
    when one is given), labels its axes "Date" and "Price (UGX per kg)",
    and has a legend. *)
Theorem plot_saves_one_file :
  forall w product market path rows,
    fetch_timeseries product market (w_db w) = (inr rows, w_db w) ->
    rows <> [] ->
    path <> "" ->
    exists fig,
      plot_product_trend product market (Some path) w
      = match w_savefig w path with
        | inr file =>
            (inr tt,
             mkWorld (w_db w) (w_figures w) (w_files w ++ [(file, (fig, 150))])
               (w_shown w) (w_savefig w))
        | inl e =>
            (inl e,
             mkWorld (w_db w) (fig :: w_figures w) (w_files w) (w_shown w)
               (w_savefig w))
        end /\
      fig_title fig
      = ("Price Trend: " ++ product ++
         match given market with
         | Some mk => " (" ++ mk ++ ")"
         | None => ""
         end)%string /\
      fig_xlabel fig = "Date" /\
      fig_ylabel fig = "Price (UGX per kg)" /\
      fig_legend fig = true.
Proof.
  intros w product market path rows H Hne Hpath.
  exists (trend_figure product market rows).
  rewrite (plot_with_data w product market (Some path) rows H Hne).
  destruct path; [contradiction|]. repeat split.
Qed.

Lemma plot_saves_one_file_witness :
  exists fig,
    plot_product_trend "Maize" (Some "Gulu") (Some "trend.xyz")
      (mkWorld iso_store [] [] [] refuses_xyz)
    = (inl (ValueError "Format 'xyz' is not supported"),
       mkWorld iso_store [fig] [] [] refuses_xyz) /\
    fig_title fig = "Price Trend: Maize (Gulu)" /\
    fig_xlabel fig = "Date" /\
    fig_ylabel fig = "Price (UGX per kg)" /\
    fig_legend fig = true.
Proof.
  apply (plot_saves_one_file (mkWorld iso_store [] [] [] refuses_xyz) "Maize"
           (Some "Gulu") "trend.xyz"
           [mkRow "Maize" "Gulu" 1100 (mkTimestamp 2023 12 1);
            mkRow "Maize" "Gulu" 1150 (mkTimestamp 2024 2 1)]).
  - reflexivity.
  - discriminate.
  - discriminate.
Defined.



(** [plot_product_trend] never writes to the store, whether it returns or
    raises; and when [out_path] is missing or empty it writes no file. *)
Theorem plot_leaves_store :
  forall w product market out_path,
    w_db (snd (plot_product_trend product market out_path w)) = w_db w /\
    (given out_path = None ->
     w_files (snd (plot_product_trend product market out_path w)) = w_files w).
Proof.
  intros w product market out_path.
  pose proof (fetch_timeseries_keeps_db (w_db w) product market) as Hdb.
  destruct (fetch_timeseries product market (w_db w)) as [[e | rows] db'] eqn:E;
    cbn [snd] in Hdb; subst db'.
  - unfold plot_product_trend, bind, lift_db. rewrite E. cbn. tauto.
  - destruct rows as [|r rows].
    + unfold plot_product_trend, bind, lift_db. rewrite E. cbn. tauto.
    + rewrite (plot_with_data w product market out_path (r :: rows) E)
        by discriminate.
      destruct (given out_path) as [path|].
      * destruct (w_savefig w path); cbn; (split; [reflexivity | discriminate]).
      * cbn. tauto.
Qed.

Lemma plot_leaves_store_witness :
  w_db (snd (plot_product_trend "Maize" None None
               (mkWorld iso_store [] [] [] writes_anywhere)))
  = iso_store /\
  w_files (snd (plot_product_trend "Maize" None None
                  (mkWorld iso_store [] [] [] writes_anywhere)))
  = [].
Proof.
  destruct (plot_leaves_store (mkWorld iso_store [] [] [] writes_anywhere)
              "Maize" None None)
    as [Hdb Hfiles].
  split; [exact Hdb | apply Hfiles; reflexivity].
Defined.

(** ** The market filter *)


Section StableOrdering.
Context {A : Type} (leb : A -> A -> bool).
Hypothesis leb_total : forall a b, leb a b = true \/ leb b a = true.
Hypothesis leb_trans :
  forall a b c, leb a b = true -> leb b c = true -> leb a c = true.



End StableOrdering.



Lemma combine_iso_rows :
  forall (df : list SqlRow) (ts : list Timestamp),
    Forall2 (fun s t => strptime fmt_iso s = Some t) (map q_date df) ts ->
    map (fun rt => mkRow (q_product (fst rt)) (q_market (fst rt))
                     (q_price (fst rt)) (snd rt))
      (combine df ts)
    = map iso_row df.
Proof.
  induction df as [|q df IH]; intros ts H; [reflexivity|].
  inversion H as [|s t col ts' Hs Hrest]; subst. cbn.
  rewrite (IH _ Hrest). unfold iso_row at 2, iso_date. now rewrite Hs.
Qed.

(** The rows of an ISO store that [fetch_timeseries] returns: the rows of
    the join in the order of their date text, each date read as ISO. *)
Lemma fetch_timeseries_iso :
  forall ps ms prs product market rows db',
    Forall (fun pr => iso_form (pr_date pr) = true) prs ->
    fetch_timeseries product market (mkDatabase (Some ps) (Some ms) (Some prs))
    = (inr rows, db') ->
    rows = map iso_row
             (order_by (fun a b => text_leb (q_date a) (q_date b))
                (join_where product (given market) ps ms prs)).
Proof.
  intros ps ms prs product market rows db' Hiso H.
  rewrite fetch_timeseries_tables in H.
  set (df := order_by _ _) in *.
  destruct (to_datetime (map q_date df)) as [e | ts] eqn:Et; [discriminate|].
  injection H as <- _.
  apply combine_iso_rows. apply to_datetime_iso; [|exact Et].
  apply Forall_forall. intros s Hs. apply in_map_iff in Hs.
  destruct Hs as (r & <- & Hr).
  apply (Permutation_in _ (Permutation_sym (order_by_perm _ _))) in Hr.
  apply join_where_dates in Hr. destruct Hr as (pr & Hpr & ->).
  revert pr Hpr. now apply Forall_forall.
Qed.

Lemma Forall2_left :
  forall (A B : Type) (P : A -> B -> Prop) (l : list A) (l' : list B) (a : A),
    Forall2 P l l' -> In a l -> exists b, P a b.
Proof.
  intros A B P l l' a H. induction H as [|x y l l' Hxy Hrest IH]; intros Hin;
    [contradiction|].
  destruct Hin as [<- | Hin]; eauto.
Qed.

Lemma fetch_timeseries_iso_dates :
  forall ps ms prs product market rows db' q,
    Forall (fun pr => iso_form (pr_date pr) = true) prs ->
    fetch_timeseries product market (mkDatabase (Some ps) (Some ms) (Some prs))
    = (inr rows, db') ->
    In q (join_where product (given market) ps ms prs) ->
    exists t, strptime fmt_iso (q_date q) = Some t.
Proof.
  intros ps ms prs product market rows db' q Hiso H Hq.
  rewrite fetch_timeseries_tables in H.
  set (df := order_by _ _) in *.
  destruct (to_datetime (map q_date df)) as [e | ts] eqn:Et; [discriminate|].
  assert (Hcol : Forall (fun s => iso_form s = true) (map q_date df)).
  { apply Forall_forall. intros s Hs. apply in_map_iff in Hs.
    destruct Hs as (r & <- & Hr).
    apply (Permutation_in _ (Permutation_sym (order_by_perm _ _))) in Hr.
    apply join_where_dates in Hr. destruct Hr as (pr & Hpr & ->).
    revert pr Hpr. now apply Forall_forall. }
  apply (Forall2_left _ _ _ _ _ (q_date q) (to_datetime_iso _ _ Hcol Et)).
  apply in_map. unfold df. now apply (Permutation_in _ (order_by_perm _ _)).
Qed.




(** ** A recorded observation is returned *)

Lemma run_all_keeps_rows :
  forall cs db,
    (forall p, In p (rows_of (products db)) ->
               In p (rows_of (products (run_all cs db)))) /\
    (forall m, In m (rows_of (markets db)) ->
               In m (rows_of (markets (run_all cs db)))) /\
    (forall pr, In pr (rows_of (prices db)) ->
                In pr (rows_of (prices (run_all cs db)))).
Proof.
  unfold run_all. induction cs as [|c cs IH]; intros db; cbn [fold_left]; [auto|].
  destruct (IH (run c db)) as (Ip & Im & Ipr).
  destruct (run_tables c db) as [Hp Hm]. pose proof (run_prices c db) as Hpr.
  split; [|split].
  - intros p Hin. apply Ip.
    destruct Hp as [-> | (name & _ & _ & ->)]; [assumption|].
    apply in_app_iff. now left.
  - intros m Hin. apply Im.
    destruct Hm as [-> | (name & location & _ & _ & ->)]; [assumption|].
    apply in_app_iff. now left.
  - intros pr Hin. apply Ipr.
    destruct Hpr as [-> | (pn & mn & pv & dt & pid & mid & _ & _ & _ & ->)];
      [assumption|].
    apply in_app_iff. now left.
Qed.

Lemma join_where_in :
  forall product market_filter ps ms prs pr p m,
    In pr prs -> In p ps -> In m ms ->
    pr_product_id pr = p_id p -> pr_market_id pr = m_id m ->
    p_name p = product ->
    market_filter = None \/ market_filter = Some (m_name m) ->
    In (mkSqlRow product (m_name m) (pr_price pr) (pr_date pr))
       (join_where product market_filter ps ms prs).
Proof.
  intros product market_filter ps ms prs pr p m Hpr Hp Hm Epid Emid Hname Hfilter.
  unfold join_where.
  apply in_flat_map. exists pr. split; [assumption|].
  apply in_flat_map. exists p. split.
  { apply filter_In. split; [assumption | now apply Z.eqb_eq]. }
  apply in_flat_map. exists m. split.
  { apply filter_In. split; [assumption | now apply Z.eqb_eq]. }
  rewrite Hname, String.eqb_refl. cbn [andb].
  destruct Hfilter as [-> | ->]; [|rewrite String.eqb_refl]; now left.
Qed.

(** An observation that [record_price] has stored is returned from then
    on.  After any further calls, on a store whose dates have the ISO form,
    every fetch of the product that returns, without a market or with the
    market of the observation, has the row with the two names, the price
    as the REAL column holds it and the date the recorded text stands
    for. *)
Theorem recorded_observation_is_fetched :
  forall db product market price date_iso (cs : list Call) filter_market rows
         db1 db3,
    record_price product market price date_iso db = (inr tt, db1) ->
    Forall (fun pr => iso_form (pr_date pr) = true)
           (rows_of (prices (run_all cs db1))) ->
    given filter_market = None \/ given filter_market = Some market ->
    fetch_timeseries product filter_market (run_all cs db1) = (inr rows, db3) ->
    exists t,
      strptime fmt_iso date_iso = Some t /\
      In (mkRow product market (sqlite_real price) t) rows.
Proof.
  intros db product market price date_iso cs filter_market rows db1 db3
         Hrec Hiso Hfilter Hfetch.
  assert (Hstored :
            exists pr p m,
              In pr (rows_of (prices db1)) /\ In p (rows_of (products db1)) /\
              In m (rows_of (markets db1)) /\
              pr_product_id pr = p_id p /\ pr_market_id pr = m_id m /\
              p_name p = product /\ m_name m = market /\
              pr_price pr = sqlite_real price /\ pr_date pr = date_iso).
  { destruct db as [ps ms prs]. revert Hrec.
    unfold record_price, get_product_id, get_market_id, insert_price. run_monad.
    destruct ps as [ps|]; [|discriminate].
    destruct ms as [ms|]; [|discriminate].
    destruct (find _ ps) as [p|] eqn:Fp; cbn [option_map]; [|discriminate].
    destruct (find _ ms) as [m|] eqn:Fm; cbn [option_map]; [|discriminate].
    destruct prs as [prs|]; [|discriminate].
    destruct (is_nan price); [discriminate|]. intros [= <-].
    apply find_some in Fp, Fm. destruct Fp as [Ip Np], Fm as [Im Nm].
    apply String.eqb_eq in Np, Nm. cbn [rows_of products markets prices].
    eexists. exists p, m. split; [apply in_app_iff; right; now left|].
    cbn. auto 10. }
  destruct Hstored as (pr & p & m & Hpr & Hp & Hm & Epid & Emid & Np & Nm & Eprice & Edate).
  destruct (run_all_keeps_rows cs db1) as (Kp & Km & Kpr).
  apply Kpr in Hpr. apply Kp in Hp. apply Km in Hm.
  destruct (run_all cs db1) as [ps2 ms2 prs2].
  destruct prs2 as [prs2|], ps2 as [ps2|], ms2 as [ms2|]; try discriminate Hfetch.
  cbn [rows_of products markets prices] in *.
  assert (Hin : In (mkSqlRow product market (sqlite_real price) date_iso)
                  (join_where product (given filter_market) ps2 ms2 prs2)).
  { rewrite <- Nm, <- Eprice, <- Edate.
    apply (join_where_in product (given filter_market) ps2 ms2 prs2 pr p m);
      try assumption.
    rewrite Nm. exact Hfilter. }
  destruct (fetch_timeseries_iso_dates _ _ _ _ _ _ _ _ Hiso Hfetch Hin) as (t & Ht).
  cbn [q_date] in Ht. exists t. split; [exact Ht|].
  apply (fetch_timeseries_iso _ _ _ _ _ _ _ Hiso) in Hfetch. subst rows.
  replace (mkRow product market (sqlite_real price) t)
    with (iso_row (mkSqlRow product market (sqlite_real price) date_iso))
    by (unfold iso_row, iso_date; cbn [q_product q_market q_price q_date];
        now rewrite Ht).
  apply in_map. now apply (Permutation_in _ (order_by_perm _ _)).
Qed.

Lemma recorded_observation_is_fetched_witness :
  exists t,
    strptime fmt_iso "2024-01-15" = Some t /\
    In (mkRow "Maize" "Kampala Central" 0 t)
      [mkRow "Maize" "Gulu" 1100 (mkTimestamp 2024 1 12);
       mkRow "Maize" "Kampala Central" 0 (mkTimestamp 2024 1 15);
       mkRow "Maize" "Gulu" 1300 (mkTimestamp 2024 3 1)].
Proof.
  apply (recorded_observation_is_fetched maize_store "Maize" "Kampala Central"
           (-0) "2024-01-15"
           [call_add_product "Rice"; call_record_price "Maize" "Gulu" 1300 "2024-03-01"]
           None _
           (run (call_record_price "Maize" "Kampala Central" (-0) "2024-01-15")
              maize_store)
           (run_all [call_add_product "Rice";
                     call_record_price "Maize" "Gulu" 1300 "2024-03-01"]
              (run (call_record_price "Maize" "Kampala Central" (-0) "2024-01-15")
                 maize_store))).
  - reflexivity.
  - repeat constructor.
  - left. reflexivity.
  - reflexivity.
Defined.

(** ** The empty market name *)

Lemma append_empty : forall s : string, (s ++ "")%string = s.
Proof. induction s as [|c s IH]; cbn; [reflexivity | now rewrite IH]. Qed.

(** C10. A market argument equal to the empty string is treated exactly
    like an omitted one.  [fetch_timeseries] runs the query without a
    market condition: the frame is made from every stored observation of
    the product, whatever its market, and not from those of a market named
    "".  [plot_product_trend] is the same computation as without a market;
    when it saves a chart, the chart has a line per market and a title
    without a market. *)
Theorem empty_market_is_no_market :
  forall product,
    fetch_timeseries product (Some "") = fetch_timeseries product None /\
    (forall out_path,
        plot_product_trend product (Some "") out_path
        = plot_product_trend product None out_path) /\
    (forall ps ms prs,
        let db := mkDatabase (Some ps) (Some ms) (Some prs) in
        let df := order_by (fun a b => text_leb (q_date a) (q_date b))
                    (join_where product None ps ms prs) in
        fetch_timeseries product (Some "") db
        = match to_datetime (map q_date df) with
          | inr ts =>
              (inr (map (fun rt => mkRow (q_product (fst rt)) (q_market (fst rt))
                                     (q_price (fst rt)) (snd rt))
                      (combine df ts)), db)
          | inl e => (inl e, db)
          end /\
        forall pr p m,
          In pr prs -> In p ps -> In m ms ->
          pr_product_id pr = p_id p -> pr_market_id pr = m_id m ->
          p_name p = product ->
          In (mkSqlRow product (m_name m) (pr_price pr) (pr_date pr)) df) /\
    (forall w path file rows,
        fetch_timeseries product (Some "") (w_db w) = (inr rows, w_db w) ->
        rows <> [] ->
        path <> "" ->
        w_savefig w path = inr file ->
        exists fig,
          plot_product_trend product (Some "") (Some path) w
          = (inr tt,
             mkWorld (w_db w) (w_figures w) (w_files w ++ [(file, (fig, 150))])
               (w_shown w) (w_savefig w)) /\
          fig_title fig = ("Price Trend: " ++ product)%string /\
          fig_lines fig = group_lines [] (groupby_market rows)).
Proof.
  intros product. split; [reflexivity|]. split; [reflexivity|]. split.
  - intros ps ms prs db df. split.
    + apply (fetch_timeseries_tables ps ms prs product (Some "")).
    + intros pr p m Hpr Hp Hm Epid Emid Hname. unfold df.
      apply (Permutation_in _ (order_by_perm _ _)).
      apply (join_where_in product None ps ms prs pr p m); auto.
  - intros w path file rows H Hne Hpath Hsave.
    exists (trend_figure product (Some "") rows).
    rewrite (plot_with_data w product (Some "") (Some path) rows H Hne).
    destruct path; [contradiction|]. cbn [given truthy]. rewrite Hsave.
    split; [reflexivity|]. split; [|reflexivity].
    unfold trend_figure. cbn [fig_title given truthy]. now rewrite append_empty.
Qed.

Lemma empty_market_is_no_market_witness :
  exists fig,
    plot_product_trend "Maize" (Some "") (Some "trend.png")
      (mkWorld iso_store [] [] [] writes_anywhere)
    = (inr tt, mkWorld iso_store [] [("trend.png", (fig, 150))] [] writes_anywhere) /\
    fig_title fig = "Price Trend: Maize" /\
    map line_label (fig_lines fig) = ["Gulu"; "Kampala Central"].
Proof.
  destruct (proj2 (proj2 (proj2 (empty_market_is_no_market "Maize")))
              (mkWorld iso_store [] [] [] writes_anywhere) "trend.png" "trend.png"
              [mkRow "Maize" "Gulu" 1100 (mkTimestamp 2023 12 1);
               mkRow "Maize" "Kampala Central" 1200 (mkTimestamp 2024 1 15);
               mkRow "Maize" "Gulu" 1150 (mkTimestamp 2024 2 1)])
    as (fig & Hrun & Htitle & Hlines).
  - reflexivity.
  - discriminate.
  - discriminate.
  - reflexivity.
  - exists fig. split; [exact Hrun|]. split; [exact Htitle|].
    rewrite Hlines. reflexivity.
Defined.

Example empty_market_fetches_every_market :
  fetch_timeseries "Maize" (Some "") iso_store
  = (inr [mkRow "Maize" "Gulu" 1100 (mkTimestamp 2023 12 1);
          mkRow "Maize" "Kampala Central" 1200 (mkTimestamp 2024 1 15);
          mkRow "Maize" "Gulu" 1150 (mkTimestamp 2024 2 1)],
     iso_store).
Proof. reflexivity. Qed.
